(** * Galaxy data managers (AMRFinderPlus, PubMLST): a shallow embedding

    The two data-manager scripts
      tools/data_manager_amrfinderplus/.../data_manager_amrfinderplus.py
      tools/data_manager_mlst/.../data_manager_mlst.py
    are embedded as state-passing programs over an explicit world.

    - Python text is [string]; a character is a code point below 256.
    - An object's attributes are a record; [None] is [option]'s [None].
    - Exceptions are a result type; [try / except Exception / finally] is
      written out with the class test Python performs ([SystemExit] is not
      an [Exception]).
    - Everything outside the process (the job file handed over by the host,
      the external programs, the downloaded tree, the network) answers
      through an [Env] record: one field per call the script makes.
    - What the script does to the outside is kept twice: as a store of the
      text files it writes ([gmap string string]) and as a log of calls.
    Standard output ([print]) is not part of the model. *)

From Stdlib Require Import ZArith Ascii String List Bool Lia DecimalString.
From stdpp Require Import base option strings gmap list.

Local Open Scope string_scope.
Local Open Scope list_scope.

(** ** Python primitives *)
Module Py.

(** *** Text *)

Definition nl_char : ascii := "010"%char.
Definition nl : string := String nl_char "".

(** [s.startswith(p)] *)
Fixpoint startswith (p s : string) : bool :=
  match p, s with
  | "", _ => true
  | String _ _, "" => false
  | String a p', String b s' => Ascii.eqb a b && startswith p' s'
  end.

(** [sub in s]: some suffix of [s] starts with [sub]. *)
Fixpoint contains (sub s : string) : bool :=
  startswith sub s ||
  match s with
  | "" => false
  | String _ s' => contains sub s'
  end.

Fixpoint rev_string (acc s : string) : string :=
  match s with
  | "" => acc
  | String c s' => rev_string (String c acc) s'
  end.

(** [s.endswith(suf)] *)
Definition endswith (suf s : string) : bool :=
  startswith (rev_string "" suf) (rev_string "" s).

(** [s[1:]] *)
Definition slice1 (s : string) : string :=
  match s with
  | "" => ""
  | String _ s' => s'
  end.

(** [str.isspace] on one character, for code points below 256:
    TAB..CR, FS..US, SPACE, NEL (0x85) and NBSP (0xa0). *)
Definition isspace (c : ascii) : bool :=
  let n := nat_of_ascii c in
  ((9 <=? n)%nat && (n <=? 13)%nat) || ((28 <=? n)%nat && (n <=? 32)%nat)
  || (n =? 133)%nat || (n =? 160)%nat.

Fixpoint lstrip (s : string) : string :=
  match s with
  | "" => ""
  | String c s' => if isspace c then lstrip s' else s
  end.

Fixpoint rstrip (s : string) : string :=
  match s with
  | "" => ""
  | String c s' =>
      match rstrip s' with
      | "" => if isspace c then "" else String c ""
      | r => String c r
      end
  end.

(** [s.strip()] *)
Definition strip (s : string) : string := rstrip (lstrip s).

(** [f.readline()] on a freshly opened text file whose (decoded, newline
    translated) content is [s]: everything up to and including the first
    newline, or all of [s] when it has none. *)
Fixpoint readline (s : string) : string :=
  match s with
  | "" => ""
  | String c s' =>
      if Ascii.eqb c nl_char then String c "" else String c (readline s')
  end.

(** [for line in f]: the lines of the content, each with its newline. *)
Fixpoint file_lines (s : string) : list string :=
  match s with
  | "" => []
  | String c s' =>
      if Ascii.eqb c nl_char then String c "" :: file_lines s'
      else match file_lines s' with
           | [] => [String c ""]
           | l :: ls => String c l :: ls
           end
  end.

(** [str(x)] inside an f-string, for an attribute that may be [None]. *)
Definition fmt (x : option string) : string :=
  match x with
  | Some s => s
  | None => "None"
  end.

(** [os.path.join(a, b)] (posixpath). *)
Definition path_join (a b : string) : string :=
  if startswith "/" b then b
  else if String.eqb a "" || endswith "/" a then a +:+ b
  else a +:+ "/" +:+ b.

(** *** pathlib *)

(** [s.split('/')] *)
Fixpoint split_slash (s : string) : list string :=
  match s with
  | "" => [""]
  | String c s' =>
      if Ascii.eqb c "/" then "" :: split_slash s'
      else match split_slash s' with
           | [] => [String c ""]
           | part :: parts => String c part :: parts
           end
  end.

(** [s.lstrip('/')] *)
Fixpoint lstrip_slash (s : string) : string :=
  match s with
  | "" => ""
  | String c s' => if Ascii.eqb c "/" then lstrip_slash s' else s
  end.

(** ['/'.join(parts)] *)
Fixpoint join_slash (parts : list string) : string :=
  match parts with
  | [] => ""
  | [x] => x
  | x :: rest => x +:+ "/" +:+ join_slash rest
  end.

(** [str(PurePosixPath(s))]: empty and "." components are dropped, a
    trailing slash too; the root is "/", or "//" for exactly two leading
    slashes; the empty path is ".". *)
Definition pure_path (s : string) : string :=
  let rel := lstrip_slash s in
  let slashes := (String.length s - String.length rel)%nat in
  let root :=
    if (slashes =? 0)%nat then ""
    else if (slashes =? 2)%nat then "//" else "/" in
  let parts :=
    List.filter (fun x => negb (String.eqb x "") && negb (String.eqb x "."))
                (split_slash rel) in
  match root, parts with
  | "", [] => "."
  | _, _ => root +:+ join_slash parts
  end.
Arguments pure_path : simpl never.

(** *** Decimal fields of [strftime] *)

Definition dec (n : nat) : string := NilZero.string_of_uint (Nat.to_uint n).

Fixpoint zeros (k : nat) : string :=
  match k with
  | O => ""
  | S k' => String "0" (zeros k')
  end.

(** [%02d]-style zero padding to [w] digits. *)
Definition zpad (w n : nat) : string :=
  let d := dec n in zeros (w - String.length d) +:+ d.

Record datetime := {
  year : nat; month : nat; day : nat;
  hour : nat; minute : nat; second : nat; microsecond : nat
}.

(** [now.strftime("%Y%m%d_%H%M%S")] *)
Definition strftime_stamp (t : datetime) : string :=
  zpad 4 (year t) +:+ zpad 2 (month t) +:+ zpad 2 (day t) +:+ "_" +:+
  zpad 2 (hour t) +:+ zpad 2 (minute t) +:+ zpad 2 (second t).

(** *** JSON values and [json.dump(v, fh, indent=2, sort_keys=True)] *)

#[warnings="-register-all"]
Inductive json :=
| JNull
| JString (s : string)
| JArray (items : list json)
| JObject (members : list (string * json)).

Definition quote_char : ascii := "034"%char.
Definition quote : string := String quote_char "".

Definition hex_digit (n : nat) : ascii :=
  match n with
  | 0 => "0" | 1 => "1" | 2 => "2" | 3 => "3" | 4 => "4" | 5 => "5"
  | 6 => "6" | 7 => "7" | 8 => "8" | 9 => "9" | 10 => "a" | 11 => "b"
  | 12 => "c" | 13 => "d" | 14 => "e" | _ => "f"
  end%char.

(** One character of a JSON string under [ensure_ascii=True]. *)
Definition escape_char (c : ascii) : string :=
  let n := nat_of_ascii c in
  if (n =? 34)%nat then String "\" quote
  else if (n =? 92)%nat then "\\"
  else if (n =? 10)%nat then "\n"
  else if (n =? 13)%nat then "\r"
  else if (n =? 9)%nat then "\t"
  else if (n =? 12)%nat then "\f"
  else if (n =? 8)%nat then "\b"
  else if (32 <=? n)%nat && (n <=? 126)%nat then String c ""
  else "\u00" +:+ String (hex_digit (n / 16)) (String (hex_digit (n mod 16)) "").

Fixpoint escape (s : string) : string :=
  match s with
  | "" => ""
  | String c s' => escape_char c +:+ escape s'
  end.

Definition dump_string (s : string) : string := quote +:+ escape s +:+ quote.

Fixpoint spaces (k : nat) : string :=
  match k with
  | O => ""
  | S k' => String " " (spaces k')
  end.

Definition newline_indent (level : nat) : string := nl +:+ spaces (2 * level).

(** Items joined by [",\n" + indent]. *)
Fixpoint join_items (level : nat) (items : list string) : string :=
  match items with
  | [] => ""
  | [x] => x
  | x :: rest => x +:+ "," +:+ newline_indent level +:+ join_items level rest
  end.

(** [sorted(d.items())] on rendered members: insertion by key. *)
Fixpoint insert_by_key (kv : string * string) (l : list (string * string))
  : list (string * string) :=
  match l with
  | [] => [kv]
  | kv' :: l' =>
      if String.leb (fst kv) (fst kv') then kv :: l
      else kv' :: insert_by_key kv l'
  end.

Definition sort_by_key (l : list (string * string)) : list (string * string) :=
  fold_right insert_by_key [] l.

Fixpoint dumps (level : nat) (v : json) : string :=
  match v with
  | JNull => "null"
  | JString s => dump_string s
  | JArray [] => "[]"
  | JArray items =>
      "[" +:+ newline_indent (S level) +:+
      join_items (S level) (map (dumps (S level)) items) +:+
      newline_indent level +:+ "]"
  | JObject [] => "{}"
  | JObject members =>
      let rendered :=
        map (fun kv => (fst kv, dumps (S level) (snd kv))) members in
      "{" +:+ newline_indent (S level) +:+
      join_items (S level)
        (map (fun kv => dump_string (fst kv) +:+ ": " +:+ snd kv)
             (sort_by_key rendered)) +:+
      newline_indent level +:+ "}"
  end.


Arguments dumps : simpl never.

(** *** Exceptions *)

(** The classes below [Exception] that the scripts can meet. *)
Inductive error :=
| OSError                              (* open, mkdir, move, urlopen, exec *)
| ValueError                           (* json / utf-8 decoding *)
| KeyError                             (* params["output_data"]... *)
| TypeError                            (* a path built from [None] *)
| CalledProcessError (returncode : Z). (* subprocess.run(check=True) *)

(** What can propagate: an [Exception], or [SystemExit] from [sys.exit],
    which derives from [BaseException] only. *)
Inductive exn :=
| Exception (e : error)
| SystemExit (code : Z).

Definition is_Exception (x : exn) : bool :=
  match x with
  | Exception _ => true
  | SystemExit _ => false
  end.

Definition is_CalledProcessError (x : exn) : bool :=
  match x with
  | Exception (CalledProcessError _) => true
  | _ => false
  end.

Inductive result (A : Type) :=
| Return (a : A)
| Raise (x : exn).
Arguments Return {A} a.
Arguments Raise {A} x.

(** *** Statements: state passing with exceptions *)

Definition M (S A : Type) : Type := S -> result A * S.

Definition ret {S A} (a : A) : M S A := fun s => (Return a, s).

Definition raise {S A} (x : exn) : M S A := fun s => (Raise x, s).

Definition bind {S A B} (m : M S A) (k : A -> M S B) : M S B :=
  fun s =>
    match m s with
    | (Return a, s') => k a s'
    | (Raise x, s') => (Raise x, s')
    end.

Definition get {S} : M S S := fun s => (Return s, s).

Definition modify {S} (f : S -> S) : M S unit := fun s => (Return tt, f s).

(** [try: body / except C as e: handler e], [catches] being the class test. *)
Definition try_except {S A} (body : M S A) (catches : exn -> bool)
    (handler : exn -> M S A) : M S A :=
  fun s =>
    match body s with
    | (Return a, s') => (Return a, s')
    | (Raise x, s') => if catches x then handler x s' else (Raise x, s')
    end.

(** [try: body / finally: final]: [final] runs on every way out of [body];
    an exception of [final] replaces whatever [body] left pending. *)
Definition try_finally {S A} (body : M S A) (final : M S unit) : M S A :=
  fun s =>
    match body s with
    | (r, s') =>
        match final s' with
        | (Return _, s'') => (r, s'')
        | (Raise x, s'') => (Raise x, s'')
        end
    end.

(** [for x in xs: body x] *)
Fixpoint for_each {S X} (xs : list X) (body : X -> M S unit) : M S unit :=
  match xs with
  | [] => ret tt
  | x :: xs' => bind (body x) (fun _ => for_each xs' body)
  end.

Definition when {S} (b : bool) (m : M S unit) : M S unit :=
  if b then m else ret tt.

(** The status the interpreter exits with once [main] is over. *)
Definition exit_status {A} (r : result A) : Z :=
  match r with
  | Return _ => 0
  | Raise (SystemExit code) => code
  | Raise (Exception _) => 1
  end.

(** *** The outside world *)

(** How [subprocess.run(argv, check=True)] can end. *)
Inductive proc_outcome :=
| Exited (returncode : Z)   (* the program ran and returned *)
| NotStarted.               (* the program could not be executed *)

Definition check_run (o : proc_outcome) : result unit :=
  match o with
  | Exited rc => if (rc =? 0)%Z then Return tt
                 else Raise (Exception (CalledProcessError rc))
  | NotStarted => Raise (Exception OSError)
  end.

(** What reading the job file gives:
    [params["output_data"][0]["extra_files_path"]] or the failing step. *)
Inductive input_outcome :=
| Unreadable                         (* open(json_path) raises *)
| Malformed                          (* json.load raises *)
| MissingKey                         (* the subscripts raise *)
| Params (extra_files_path : string).

Definition load_input (i : input_outcome) : result string :=
  match i with
  | Unreadable => Raise (Exception OSError)
  | Malformed => Raise (Exception ValueError)
  | MissingKey => Raise (Exception KeyError)
  | Params p => Return p
  end.

(** Calls that reach the outside, in program order. *)
Inductive event :=
| EvMkdir (path : string)
| EvRun (argv : list string)
| EvRmtree (path : string)
| EvCopytree (src dst : string)
| EvMove (src dst : string)
| EvUrlopen (url : string)
| EvTruncate (path : string)            (* open(path, "w") *)
| EvWriteText (path text : string)      (* out.write(text) *)
| EvAppend (path text : string)         (* open(path, "a") ... write *)
| EvDump (path text : string)           (* open "w"; json.dump; flush; fsync *)
| EvDumpFailed (path : string).         (* the same, open(path, "w") raising *)

(** A catalog dump, carried out or not. *)
Definition is_dump (e : event) : bool :=
  match e with
  | EvDump _ _ => true
  | EvDumpFailed _ => true
  | _ => false
  end.

Record World := {
  files : gmap string string;   (* the text files the script writes *)
  log : list event
}.

Definition emit (e : event) (w : World) : World :=
  {| files := files w; log := log w ++ [e] |}.

(** [open(path, "w")] followed by writing [text] and closing. *)
Definition write_file (path text : string) (w : World) : World :=
  {| files := <[path := text]> (files w); log := log w |}.

(** [open(path, "a")]: the file is created empty when absent. *)
Definition open_append (path : string) (w : World) : World :=
  {| files := <[path := default "" (files w !! path)]> (files w);
     log := log w |}.

(** [write] on a file opened for appending. *)
Definition append_file (path text : string) (w : World) : World :=
  {| files := <[path := default "" (files w !! path) +:+ text]> (files w);
     log := log w ++ [EvAppend path text] |}.

Definition empty_world : World := {| files := ∅; log := [] |}.

(** An object that carries the world along with its attributes. *)
Class HasWorld (S : Type) := {
  world_of : S -> World;
  with_world : World -> S -> S
}.

Section WorldCalls.
Context {S : Type} `{HasWorld S}.

Definition act (f : World -> World) : M S unit :=
  modify (fun s => with_world (f (world_of s)) s).

Definition lift {A} (r : result A) : M S A := fun s => (r, s).

(** A call that either succeeds or raises [OSError]. *)
Definition os_call (e : event) (ok : bool) : M S unit :=
  bind (act (emit e))
       (fun _ => if ok then ret tt else raise (Exception OSError)).

(** [subprocess.run(argv, check=True)] *)
Definition subprocess_run (argv : list string) (o : proc_outcome) : M S unit :=
  bind (act (emit (EvRun argv))) (fun _ => lift (check_run o)).

(** [with open(path, "w") as fh: json.dump(...); fh.flush(); os.fsync(...)].
    [ok] says whether the file can be opened for writing (it cannot when
    its directory is missing or closed to the process); when it cannot,
    OSError is raised and nothing is written. A failure once the file is
    open (a full disk) is left out. *)
Definition json_dump_to (path text : string) (ok : bool) : M S unit :=
  if ok then act (fun w => emit (EvDump path text) (write_file path text w))
  else bind (act (emit (EvDumpFailed path)))
            (fun _ => raise (Exception OSError)).
End WorldCalls.

Declare Scope py_scope.
Delimit Scope py_scope with py.
Notation "x <- m ;; k" := (bind m (fun x => k))
  (at level 100, m at next level, right associativity) : py_scope.
Notation "m ;; k" := (bind m (fun _ => k))
  (at level 100, right associativity) : py_scope.

End Py.

(** ** data_manager_amrfinderplus.py *)
Module AmrFinderPlus.
Import Py.
Local Open Scope py_scope.

(** The answers of the outside to the calls of one run. *)
Record Env := {
  input : input_outcome;            (* open + json.load + subscripts *)
  mkdir_extra : bool;               (* extra_files_path.mkdir(...) *)
  mkdir_tmp : bool;                 (* output_dir.mkdir(...) *)
  amrfinder_update : proc_outcome;
  version_txt : option string;      (* latest/version.txt, None: no such file *)
  database_format_version_txt : option string;
  copytree : bool;
  dump_json : bool                  (* open(json_path, "w") *)
}.

Record Self := {
  json_path : string;
  db_name : string;
  output_dir : option string;
  extra_files_path : option string;
  version : option string;
  dbformat : option string;
  world : World
}.

Definition set_output_dir (v : option string) (s : Self) : Self :=
  {| json_path := json_path s; db_name := db_name s; output_dir := v;
     extra_files_path := extra_files_path s; version := version s;
     dbformat := dbformat s; world := world s |}.

Definition set_extra_files_path (v : option string) (s : Self) : Self :=
  {| json_path := json_path s; db_name := db_name s;
     output_dir := output_dir s; extra_files_path := v;
     version := version s; dbformat := dbformat s; world := world s |}.

Definition set_version (v : option string) (s : Self) : Self :=
  {| json_path := json_path s; db_name := db_name s;
     output_dir := output_dir s; extra_files_path := extra_files_path s;
     version := v; dbformat := dbformat s; world := world s |}.

Definition set_dbformat (v : option string) (s : Self) : Self :=
  {| json_path := json_path s; db_name := db_name s;
     output_dir := output_dir s; extra_files_path := extra_files_path s;
     version := version s; dbformat := v; world := world s |}.

Definition set_world (w : World) (s : Self) : Self :=
  {| json_path := json_path s; db_name := db_name s;
     output_dir := output_dir s; extra_files_path := extra_files_path s;
     version := version s; dbformat := dbformat s; world := w |}.

#[global] Instance self_world : HasWorld Self :=
  {| world_of := world; with_world := set_world |}.

(** The paths of this class are [pathlib.Path] objects; an attribute holds
    the string of the path, [str(Path(...))]. *)
Definition __init__ (json_path db_name : string) (w : World) : Self :=
  {| json_path := pure_path json_path; db_name := db_name; output_dir := None;
     extra_files_path := None; version := None; dbformat := None;
     world := w |}.

(** [Path / name]; [None / name] is a [TypeError]. *)
Definition path_div (p : option string) (name : string) : M Self string :=
  match p with
  | Some d => ret (pure_path (path_join d name))
  | None => raise (Exception TypeError)
  end.

(** [open(path) as f: f.readline().strip()] *)
Definition first_line (content : option string) : M Self string :=
  match content with
  | Some c => ret (strip (readline c))
  | None => raise (Exception OSError)
  end.

Definition read_input_json (env : Env) : M Self unit :=
  p <- lift (load_input (input env)) ;;
  let extra := pure_path p in
  modify (set_extra_files_path (Some extra)) ;;
  os_call (EvMkdir extra) (mkdir_extra env) ;;
  let tmp := pure_path (path_join extra "tmp_download") in
  modify (set_output_dir (Some tmp)) ;;
  os_call (EvMkdir tmp) (mkdir_tmp env).

Definition catalog_entry (s : Self) : json :=
  JObject
    [("data_tables",
      JObject
        [("amrfinderplus_versioned_database",
          JArray
            [JObject
               [("value",
                 JString ("amrfinderplus_" +:+ fmt (version s) +:+ "_" +:+
                          fmt (dbformat s)));
                ("name",
                 JString (fmt (version s) +:+ " (" +:+ fmt (dbformat s) +:+
                          ")"));
                ("db_version",
                 match dbformat s with
                 | Some d => JString d
                 | None => JNull
                 end);
                ("path", JString (db_name s))]])])].

Definition write_output_json (env : Env) : M Self unit :=
  s <- get ;;
  json_dump_to (json_path s) (dumps 0 (catalog_entry s)) (dump_json env).

Definition run_amrfinder_update (env : Env) : M Self unit :=
  s <- get ;;
  subprocess_run ["amrfinder_update"; "-d"; fmt (output_dir s)]
                 (amrfinder_update env).

Definition read_versions (env : Env) : M Self unit :=
  s <- get ;;
  _ <- path_div (output_dir s) "latest" ;;
  v <- first_line (version_txt env) ;;
  modify (set_version (Some v)) ;;
  d <- first_line (database_format_version_txt env) ;;
  modify (set_dbformat (Some d)).

Definition copy_database (env : Env) : M Self unit :=
  s <- get ;;
  latest_dir <- path_div (output_dir s) "latest" ;;
  final_dir <- path_div (extra_files_path s) (db_name s) ;;
  os_call (EvCopytree latest_dir final_dir) (copytree env).

(** [shutil.rmtree(self.output_dir, ignore_errors=True)]: whatever goes
    wrong, a missing directory or an unset attribute, is ignored. *)
Definition cleanup : M Self unit :=
  s <- get ;;
  match output_dir s with
  | Some d => act (emit (EvRmtree d))
  | None => ret tt
  end.

Definition run (env : Env) : M Self unit :=
  try_finally
    (try_except
       (read_input_json env ;;
        run_amrfinder_update env ;;
        read_versions env ;;
        copy_database env)
       is_Exception
       (fun _ =>
          modify (set_version (Some "unknown")) ;;
          modify (set_dbformat (Some "unknown"))))
    (cleanup ;; write_output_json env).

(** [main], after argument parsing: the exit status and the world left. *)
Definition main (data_manager_json : string) (env : Env) (w : World)
  : Z * World :=
  let mgr := __init__ data_manager_json "amrfinderplus-db" w in
  let '(r, s) := run env mgr in
  (exit_status r, world s).

End AmrFinderPlus.

(** ** data_manager_mlst.py *)
Module MLST.
Import Py.
Local Open Scope py_scope.

(** One name of a scheme directory. [fcontent] is [None] when the file
    cannot be opened, and else the text its iteration yields;
    [fundecodable] says that the iteration then ends with
    UnicodeDecodeError instead of the end of the file. *)
Record scheme_file := {
  fname : string;
  fcontent : option string;
  fundecodable : bool
}.

(** One name of [os.listdir(dst_dir)], with what [os.path.isdir] says. *)
Inductive dir_entry :=
| PlainFile (name : string)
| Directory (name : string) (listing : list scheme_file).

(** The answers of the outside to the calls of one run. *)
Record Env := {
  input : input_outcome;            (* open + json.load + subscripts *)
  makedirs_extra : bool;            (* os.makedirs(extra_files_path) *)
  abspath : string -> string;       (* os.path.abspath *)
  getcwd : string;
  download : proc_outcome;          (* mlst-download_pub_mlst *)
  dst_exists : bool;                (* os.path.exists(dst_dir) *)
  rmtree_dst : bool;
  move_src : bool;                  (* shutil.move(src_dir, dst_dir) *)
  makedirs_blast : bool;
  open_blast : bool;                (* open(blast_file, "a") *)
  pubmlst : list dir_entry;         (* the moved tree, in listdir order *)
  makeblastdb : proc_outcome;
  urlopen : bool;
  open_map : bool;                  (* open(dst_file, "w") *)
  map_body : option string;         (* response.read().decode("utf-8") *)
  dump_json : bool                  (* open(json_path, "w") *)
}.

Record Self := {
  json_path : string;
  extra_files_path : option string;
  output_dir : option string;
  timestamp : string;
  db_name : string;
  world : World
}.

Definition set_extra_files_path (v : option string) (s : Self) : Self :=
  {| json_path := json_path s; extra_files_path := v;
     output_dir := output_dir s; timestamp := timestamp s;
     db_name := db_name s; world := world s |}.

Definition set_output_dir (v : option string) (s : Self) : Self :=
  {| json_path := json_path s; extra_files_path := extra_files_path s;
     output_dir := v; timestamp := timestamp s;
     db_name := db_name s; world := world s |}.

Definition set_world (w : World) (s : Self) : Self :=
  {| json_path := json_path s; extra_files_path := extra_files_path s;
     output_dir := output_dir s; timestamp := timestamp s;
     db_name := db_name s; world := w |}.

#[global] Instance self_world : HasWorld Self :=
  {| world_of := world; with_world := set_world |}.

Definition __init__ (json_path : string) (now : datetime) (w : World) : Self :=
  let timestamp := strftime_stamp now in
  {| json_path := json_path; extra_files_path := None; output_dir := None;
     timestamp := timestamp; db_name := "mlst_database_" +:+ timestamp;
     world := w |}.

Definition read_input_json (env : Env) : M Self unit :=
  p <- lift (load_input (input env)) ;;
  modify (set_extra_files_path (Some p)) ;;
  os_call (EvMkdir p) (makedirs_extra env) ;;
  modify (set_output_dir (Some (abspath env p))).

Definition catalog_entry (s : Self) : json :=
  JObject
    [("data_tables",
      JObject
        [("mlst",
          JArray
            [JObject
               [("value", JString (db_name s));
                ("name", JString (db_name s));
                ("path", JString "mlst-db")]])])].

Definition write_output_json (env : Env) : M Self unit :=
  s <- get ;;
  json_dump_to (json_path s) (dumps 0 (catalog_entry s)) (dump_json env).

Definition download_pubmlst_databases (env : Env) : M Self unit :=
  try_except
    (subprocess_run ["mlst-download_pub_mlst"; "-d"; "pubmlst"] (download env))
    is_CalledProcessError
    (fun _ => raise (SystemExit 1)).

(** [os.path.join(self.output_dir, name)]; joining [None] is a [TypeError]. *)
Definition join_output_dir (s : Self) (name : string) : M Self string :=
  match output_dir s with
  | Some d => ret (path_join d name)
  | None => raise (Exception TypeError)
  end.

(** The body of [for line in infile]. *)
Definition copy_line (blast_file scheme line : string) : M Self unit :=
  when (negb (contains "not a locus" line))
    (if startswith ">" line
     then act (append_file blast_file (">" +:+ scheme +:+ "." +:+ slice1 line))
     else act (append_file blast_file line)).

(** The body of [for f in os.listdir(scheme_path)]. *)
Definition copy_file (blast_file scheme : string) (f : scheme_file)
  : M Self unit :=
  when (endswith ".tfa" (fname f))
    match fcontent f with
    | Some content =>
        for_each (file_lines content) (copy_line blast_file scheme) ;;
        if fundecodable f then raise (Exception ValueError) else ret tt
    | None => raise (Exception OSError)
    end.

(** The body of [for scheme in os.listdir(dst_dir)]. *)
Definition copy_scheme (blast_file : string) (e : dir_entry) : M Self unit :=
  match e with
  | PlainFile _ => ret tt
  | Directory scheme listing => for_each listing (copy_file blast_file scheme)
  end.

Definition make_blast_database (env : Env) : M Self unit :=
  s <- get ;;
  let src_dir := path_join (getcwd env) "pubmlst" in
  dst_dir <- join_output_dir s "pubmlst" ;;
  when (dst_exists env) (os_call (EvRmtree dst_dir) (rmtree_dst env)) ;;
  os_call (EvMove src_dir dst_dir) (move_src env) ;;
  blast_dir <- join_output_dir s "blast" ;;
  os_call (EvMkdir blast_dir) (makedirs_blast env) ;;
  let blast_file := path_join blast_dir "mlst.fa" in
  (if open_blast env then act (open_append blast_file)
   else raise (Exception OSError)) ;;
  for_each (pubmlst env) (copy_scheme blast_file) ;;
  subprocess_run
    ["makeblastdb"; "-hash_index"; "-in"; blast_file; "-dbtype"; "nucl";
     "-title"; "PubMLST"; "-parse_seqids"]
    (makeblastdb env).

Definition scheme_species_map_url : string :=
  "https://raw.githubusercontent.com/tseemann/mlst/master/db/scheme_species_map.tab".

Definition download_scheme_species_map (env : Env) : M Self unit :=
  s <- get ;;
  dst_file <- join_output_dir s "scheme_species_map.tab" ;;
  try_except
    (os_call (EvUrlopen scheme_species_map_url) (urlopen env) ;;
     os_call (EvTruncate dst_file) (open_map env) ;;
     act (write_file dst_file "") ;;
     match map_body env with
     | Some text =>
         act (fun w => emit (EvWriteText dst_file text)
                            (write_file dst_file text w))
     | None => raise (Exception ValueError)
     end)
    is_Exception
    (fun _ => ret tt).

Definition run (env : Env) : M Self unit :=
  try_finally
    (try_except
       (read_input_json env ;;
        download_pubmlst_databases env ;;
        make_blast_database env ;;
        download_scheme_species_map env)
       is_Exception
       (fun _ => ret tt))
    (write_output_json env).

(** [main], after argument parsing: the exit status and the world left. *)
Definition main (data_manager_json : string) (now : datetime) (env : Env)
    (w : World) : Z * World :=
  let mgr := __init__ data_manager_json now w in
  let '(r, s) := run env mgr in
  (exit_status r, world s).

End MLST.

(** ** tools/lissero/lissero/variant4b.py *)
Module Variant4b.
Import Py.

(** The exceptions the function can end with. *)
Inductive error :=
| OSError       (* open *)
| ValueError    (* list.index of a name that is not there *)
| IndexError.   (* data[index] past the end of a row *)

Inductive res (A : Type) :=
| Ok (a : A)
| Err (e : error).
Arguments Ok {A} a.
Arguments Err {A} e.

Definition tab_char : ascii := "009"%char.
Definition tab : string := String tab_char "".

(** [s.split('\t')] *)
Fixpoint split_tab (s : string) : list string :=
  match s with
  | "" => [""]
  | String c s' =>
      if Ascii.eqb c tab_char then "" :: split_tab s'
      else match split_tab s' with
           | [] => [String c ""]
           | field :: fields => String c field :: fields
           end
  end.

(** ['\t'.join(data)] *)
Fixpoint join_tab (data : list string) : string :=
  match data with
  | [] => ""
  | [x] => x
  | x :: rest => x +:+ tab +:+ join_tab rest
  end.

(** [headers.index(name)] *)
Fixpoint index (name : string) (headers : list string) : res nat :=
  match headers with
  | [] => Err ValueError
  | h :: rest =>
      if String.eqb h name then Ok 0
      else match index name rest with
           | Ok i => Ok (S i)
           | Err e => Err e
           end
  end.

Definition genes_of_interest : list string :=
  ["LMO0737"; "ORF2110"; "ORF2819"].

(** [[headers.index(gene) for gene in genes]] *)
Fixpoint indices (headers genes : list string) : res (list nat) :=
  match genes with
  | [] => Ok []
  | gene :: rest =>
      match index gene headers with
      | Err e => Err e
      | Ok i =>
          match indices headers rest with
          | Err e => Err e
          | Ok others => Ok (i :: others)
          end
      end
  end.

(** [all(data[index] == 'FULL' for index in gene_indices)]: the indices are
    tried in order, up to the first field that is not "FULL". *)
Fixpoint all_full (data : list string) (gene_indices : list nat) : res bool :=
  match gene_indices with
  | [] => Ok true
  | i :: rest =>
      match data !! i with
      | None => Err IndexError
      | Some field =>
          if String.eqb field "FULL" then all_full data rest else Ok false
      end
  end.

(** [data[i] = value] *)
Definition set_item (data : list string) (i : nat) (value : string)
  : res (list string) :=
  if (i <? length data)%nat then Ok (<[i := value]> data) else Err IndexError.

(** The fields of one data line after the test on the genes. *)
Definition relabel (gene_indices : list nat) (serotype_index : nat)
    (data : list string) : res (list string) :=
  match all_full data gene_indices with
  | Err e => Err e
  | Ok true => set_item data serotype_index "4b variant"
  | Ok false => Ok data
  end.

(** The body of [for line in lines[1:]]. *)
Definition modified_line (gene_indices : list nat) (serotype_index : nat)
    (simple_name line : string) : res string :=
  match relabel gene_indices serotype_index (split_tab (strip line)) with
  | Err e => Err e
  | Ok data => Ok (simple_name +:+ tab +:+ join_tab data +:+ nl)
  end.

(** The loop over [lines[1:]]: the lines appended to [modified_lines]. *)
Fixpoint modified_rows (gene_indices : list nat) (serotype_index : nat)
    (simple_name : string) (lines : list string) : res (list string) :=
  match lines with
  | [] => Ok []
  | line :: rest =>
      match modified_line gene_indices serotype_index simple_name line with
      | Err e => Err e
      | Ok row =>
          match modified_rows gene_indices serotype_index simple_name rest with
          | Err e => Err e
          | Ok rows => Ok (row :: rows)
          end
      end
  end.

(** [file.writelines(modified_lines)] *)
Definition writelines (lines : list string) : string :=
  fold_right String.append "" lines.

(** How a call ends: it returns, having written the output file or not, or
    it raises. *)
Inductive outcome :=
| Returned (written : option string)
| Raised (e : error).

(** [input]: the content of the input file, [None] when it cannot be
    opened; [writable]: whether the output file can be opened for writing. *)
Definition identify_variants_with_genes (input : option string)
    (writable : bool) (simple_name : string) : outcome :=
  match input with
  | None => Raised OSError
  | Some content =>
      let lines := file_lines content in
      if (length lines <=? 1)%nat then Returned None
      else
        match lines with
        | [] => Returned None
        | first :: rest =>
            let headers := split_tab (strip first) in
            match indices headers genes_of_interest with
            | Err e => Raised e
            | Ok gene_indices =>
                match index "SEROTYPE" headers with
                | Err e => Raised e
                | Ok serotype_index =>
                    let modified_header := "FileName" +:+ tab +:+ first in
                    match modified_rows gene_indices serotype_index
                            simple_name rest with
                    | Err e => Raised e
                    | Ok rows =>
                        if writable
                        then Returned
                               (Some (writelines (modified_header :: rows)))
                        else Raised OSError
                    end
                end
            end
        end
  end.

End Variant4b.

(** ** create_shed_yaml.py: [clean_text] *)
Module CreateShedYaml.
Import Py.

Definition nbsp : ascii := "160"%char.

(** [t.replace("\xa0", " ")] *)
Fixpoint replace_nbsp (t : string) : string :=
  match t with
  | "" => ""
  | String c t' =>
      String (if Ascii.eqb c nbsp then " "%char else c) (replace_nbsp t')
  end.

(** [re.sub(r"\s+", " ", t)]: every maximal run of whitespace becomes one
    space. [in_run] says that the character before belonged to a run whose
    space has been put out already. *)
Fixpoint collapse (in_run : bool) (t : string) : string :=
  match t with
  | "" => ""
  | String c t' =>
      if isspace c then
        if in_run then collapse true t' else String " " (collapse true t')
      else String c (collapse false t')
  end.

(** [t] is [None] or a string; [not t] holds for [None] and for "". *)
Definition clean_text (t : option string) : string :=
  match t with
  | None => ""
  | Some "" => ""
  | Some s => strip (collapse false (replace_nbsp s))
  end.

End CreateShedYaml.

(** * Vocabulary of the statements *)

Import Py.
Local Open Scope py_scope.

(** ** Frames: what a statement leaves alone

    A statement [keeps] the frame when it preserves a chosen projection of
    the attributes and adds only calls other than a catalog dump to the log;
    it is [mild] when all it can raise is an [Exception]. *)

Definition quiet (evs : list event) : Prop :=
  forallb (fun e => negb (is_dump e)) evs = true.

Section FrameDefs.
Context {S X : Type} `{HasWorld S} (fixed : S -> X).

Definition frame (s s' : S) : Prop :=
  fixed s' = fixed s /\
  exists evs, log (world_of s') = log (world_of s) ++ evs /\ quiet evs.

Definition keeps {A} (m : M S A) : Prop := forall s, frame s (snd (m s)).

Definition mild {A} (m : M S A) : Prop :=
  forall s x, fst (m s) = Raise x -> is_Exception x = true.

End FrameDefs.

(** ** AMRFinderPlus *)

Section AmrDefs.
Import AmrFinderPlus.

(** The attributes no method assigns after construction. *)
Definition amr_fixed (s : Self) : string * string := (json_path s, db_name s).

(** The [try] block with its handler, as [run] has it. *)
Definition amr_attempt (env : Env) : M Self unit :=
  try_except
    (read_input_json env ;;
     run_amrfinder_update env ;;
     read_versions env ;;
     copy_database env)
    is_Exception
    (fun _ =>
       modify (set_version (Some "unknown")) ;;
       modify (set_dbformat (Some "unknown"))).

End AmrDefs.

(** ** PubMLST *)

Section MlstDefs.
Import MLST.

(** The attributes no method assigns after construction. *)
Definition mlst_fixed (s : Self) : string * string := (json_path s, db_name s).

(** What follows the download inside the [try] block of [run]. *)
Definition mlst_rest (env : Env) : M Self unit :=
  make_blast_database env ;;
  download_scheme_species_map env.

(** The [try] block with its handler, as [run] has it. *)
Definition mlst_attempt (env : Env) : M Self unit :=
  try_except
    (read_input_json env ;;
     download_pubmlst_databases env ;;
     make_blast_database env ;;
     download_scheme_species_map env)
    is_Exception
    (fun _ => ret tt).

End MlstDefs.

(** ** Publication *)

(** Between [w0] and [w] the catalog at [path] was dumped once, as the last
    call, with [text], and [text] is what the file holds in [w]. *)
Definition published_once (path text : string) (w0 w : World) : Prop :=
  (exists evs, quiet evs /\ log w = log w0 ++ evs ++ [EvDump path text]) /\
  files w !! path = Some text.


(** [entry["data_tables"][table][0][key]] on a catalog document. *)
Fixpoint assoc (key : string) (members : list (string * json)) : option json :=
  match members with
  | [] => None
  | (k, v) :: rest => if String.eqb k key then Some v else assoc key rest
  end.

Definition subscript (key : string) (j : json) : option json :=
  match j with
  | JObject members => assoc key members
  | _ => None
  end.

Definition first_item (j : json) : option json :=
  match j with
  | JArray (x :: _) => Some x
  | _ => None
  end.

Definition entry_field (table key : string) (j : json) : option json :=
  match subscript "data_tables" j with
  | Some tables =>
      match subscript table tables with
      | Some rows =>
          match first_item rows with
          | Some row => subscript key row
          | None => None
          end
      | None => None
      end
  | None => None
  end.

(** The catalog document of a whole run: [catalog_entry] on the object as
    [run] leaves it. *)
Definition amr_published_entry (json_path : string) (env : AmrFinderPlus.Env)
    (w0 : World) : json :=
  AmrFinderPlus.catalog_entry
    (snd (AmrFinderPlus.run env
            (AmrFinderPlus.__init__ json_path "amrfinderplus-db" w0))).

Definition mlst_published_entry (json_path : string) (now : datetime)
    (env : MLST.Env) (w0 : World) : json :=
  MLST.catalog_entry (snd (MLST.run env (MLST.__init__ json_path now w0))).

(** Every stage of the AMRFinderPlus [try] block goes through. *)
Definition amr_upstream_ok (env : AmrFinderPlus.Env) : bool :=
  match AmrFinderPlus.input env with Params _ => true | _ => false end &&
  AmrFinderPlus.mkdir_extra env &&
  AmrFinderPlus.mkdir_tmp env &&
  match AmrFinderPlus.amrfinder_update env with
  | Exited rc => (rc =? 0)%Z
  | NotStarted => false
  end &&
  match AmrFinderPlus.version_txt env with Some _ => true | None => false end &&
  match AmrFinderPlus.database_format_version_txt env with
  | Some _ => true
  | None => false
  end &&
  AmrFinderPlus.copytree env.

(** The version and format the AMRFinderPlus object holds at publication. *)
Definition amr_descriptor (env : AmrFinderPlus.Env) : string * string :=
  if amr_upstream_ok env then
    (strip (readline (default "" (AmrFinderPlus.version_txt env))),
     strip (readline
              (default "" (AmrFinderPlus.database_format_version_txt env))))
  else ("unknown", "unknown").

(** The PubMLST downloader was reached, ran, and returned a nonzero status. *)
Definition mlst_download_returned_nonzero (env : MLST.Env) : bool :=
  match MLST.input env with
  | Params _ =>
      MLST.makedirs_extra env &&
      match MLST.download env with
      | Exited rc => negb (rc =? 0)%Z
      | NotStarted => false
      end
  | _ => false
  end.

(** ** Sample runs *)

Definition job_json : string := "/job/galaxy.json".

Definition noon : datetime :=
  {| year := 2024; month := 1; day := 2; hour := 12; minute := 0;
     second := 0; microsecond := 0 |}.

(** Another instant of the same second. *)
Definition noon_later : datetime :=
  {| year := 2024; month := 1; day := 2; hour := 12; minute := 0;
     second := 0; microsecond := 999 |}.

Definition amr_env (update : proc_outcome) (version format : option string)
  : AmrFinderPlus.Env :=
  {| AmrFinderPlus.input := Params "/tmp/x";
     AmrFinderPlus.mkdir_extra := true;
     AmrFinderPlus.mkdir_tmp := true;
     AmrFinderPlus.amrfinder_update := update;
     AmrFinderPlus.version_txt := version;
     AmrFinderPlus.database_format_version_txt := format;
     AmrFinderPlus.copytree := true;
     AmrFinderPlus.dump_json := true |}.

Definition amr_env_ok : AmrFinderPlus.Env :=
  amr_env (Exited 0) (Some ("3.12" +:+ nl)) (Some ("2024-01-01.1" +:+ nl)).


Definition amr_env_no_version_file : AmrFinderPlus.Env :=
  amr_env (Exited 0) None (Some ("2024-01-01.1" +:+ nl)).

(** One scheme with one sequence file of two records; the second body line
    of the first record and the identifier line of the second record carry
    the marker. *)
Definition adk_tfa : string :=
  ">adk_1" +:+ nl +:+ "ACGT" +:+ nl +:+ "not a locus" +:+ nl +:+
  ">adk_2 not a locus" +:+ nl +:+ "GGCC" +:+ nl.

Definition sample_tree : list MLST.dir_entry :=
  [MLST.Directory "ecoli"
     [{| MLST.fname := "adk.tfa"; MLST.fcontent := Some adk_tfa;
         MLST.fundecodable := false |};
      {| MLST.fname := "ecoli.txt"; MLST.fcontent := Some "ST adk";
         MLST.fundecodable := false |}];
   MLST.PlainFile "README"].

Definition mlst_env (download : proc_outcome) (rerun : bool) : MLST.Env :=
  {| MLST.input := Params "/tmp/x";
     MLST.makedirs_extra := true;
     MLST.abspath := fun p => p;
     MLST.getcwd := "/job";
     MLST.download := download;
     MLST.dst_exists := rerun;
     MLST.rmtree_dst := true;
     MLST.move_src := true;
     MLST.makedirs_blast := true;
     MLST.open_blast := true;
     MLST.pubmlst := sample_tree;
     MLST.makeblastdb := Exited 0;
     MLST.urlopen := true;
     MLST.open_map := true;
     MLST.map_body := Some "ecoli Escherichia coli";
     MLST.dump_json := true |}.

Definition mlst_env_ok : MLST.Env := mlst_env (Exited 0) false.
Definition mlst_env_download_fails : MLST.Env := mlst_env (Exited 1) false.
Definition mlst_env_not_started : MLST.Env := mlst_env NotStarted false.

(** ** The merged sequence file *)

(** The lines of one record body, put back together. *)
Definition join_lines (lines : list string) : string :=
  fold_right String.append "" lines.


(** The content of the file at [path], as the object's world has it. *)
Definition mlst_file (path : string) (s : MLST.Self) : option string :=
  files (MLST.world s) !! path.

(** An object past [read_input_json], with "/tmp/x" as output directory. *)
Definition mlst_ready : MLST.Self :=
  MLST.set_output_dir (Some "/tmp/x")
    (MLST.__init__ job_json noon empty_world).

(** ** The calls of one run *)

(** The calls logged after [w0], in [w]. *)
Definition calls_since (w0 w : World) : list event :=
  drop (length (log w0)) (log w).

Definition amr_calls (json_path : string) (env : AmrFinderPlus.Env)
    (w0 : World) : list event :=
  calls_since w0 (snd (AmrFinderPlus.main json_path env w0)).

Definition mlst_calls (json_path : string) (now : datetime) (env : MLST.Env)
    (w0 : World) : list event :=
  calls_since w0 (snd (MLST.main json_path now env w0)).

Definition is_copytree (e : event) : bool :=
  match e with
  | EvCopytree _ _ => true
  | _ => false
  end.

Definition is_urlopen (e : event) : bool :=
  match e with
  | EvUrlopen _ => true
  | _ => false
  end.

Definition is_run_of (program : string) (e : event) : bool :=
  match e with
  | EvRun (p :: _) => String.eqb p program
  | _ => false
  end.


(** Every stage of the AMRFinderPlus [try] block before [copy_database]
    goes through. *)
Definition amr_reaches_copy (env : AmrFinderPlus.Env) : bool :=
  match AmrFinderPlus.input env with Params _ => true | _ => false end &&
  AmrFinderPlus.mkdir_extra env &&
  AmrFinderPlus.mkdir_tmp env &&
  match AmrFinderPlus.amrfinder_update env with
  | Exited rc => (rc =? 0)%Z
  | NotStarted => false
  end &&
  match AmrFinderPlus.version_txt env with Some _ => true | None => false end &&
  match AmrFinderPlus.database_format_version_txt env with
  | Some _ => true
  | None => false
  end.

(** The job file is there and [params["output_data"][0]["extra_files_path"]]
    can be read off it. *)
Definition input_ok (i : input_outcome) : bool :=
  match i with
  | Params _ => true
  | _ => false
  end.

Definition amr_env_unreadable : AmrFinderPlus.Env :=
  {| AmrFinderPlus.input := Unreadable;
     AmrFinderPlus.mkdir_extra := true;
     AmrFinderPlus.mkdir_tmp := true;
     AmrFinderPlus.amrfinder_update := Exited 0;
     AmrFinderPlus.version_txt := Some ("3.12" +:+ nl);
     AmrFinderPlus.database_format_version_txt := Some ("2024-01-01.1" +:+ nl);
     AmrFinderPlus.copytree := true;
     AmrFinderPlus.dump_json := true |}.

Definition mlst_env_malformed : MLST.Env :=
  {| MLST.input := Malformed;
     MLST.makedirs_extra := true;
     MLST.abspath := fun p => p;
     MLST.getcwd := "/job";
     MLST.download := Exited 0;
     MLST.dst_exists := false;
     MLST.rmtree_dst := true;
     MLST.move_src := true;
     MLST.makedirs_blast := true;
     MLST.open_blast := true;
     MLST.pubmlst := sample_tree;
     MLST.makeblastdb := Exited 0;
     MLST.urlopen := true;
     MLST.open_map := true;
     MLST.map_body := Some "ecoli Escherichia coli";
     MLST.dump_json := true |}.


(** ** The text of a merge *)

(** What the merge writes for one line of a sequence file. *)
Definition line_text (scheme line : string) : string :=
  if contains "not a locus" line then ""
  else if startswith ">" line then ">" +:+ scheme +:+ "." +:+ slice1 line
  else line.

(** What it writes for one name of a scheme directory. *)
Definition file_text (scheme : string) (f : MLST.scheme_file) : string :=
  if endswith ".tfa" (MLST.fname f) then
    match MLST.fcontent f with
    | Some content => join_lines (map (line_text scheme) (file_lines content))
    | None => ""
    end
  else "".

(** What it writes for one name of the downloaded tree. *)
Definition scheme_text (e : MLST.dir_entry) : string :=
  match e with
  | MLST.PlainFile _ => ""
  | MLST.Directory scheme listing => join_lines (map (file_text scheme) listing)
  end.

Definition tree_text (tree : list MLST.dir_entry) : string :=
  join_lines (map scheme_text tree).

(** Every sequence file of the tree can be opened and read to its end. *)
Definition file_readable (f : MLST.scheme_file) : bool :=
  negb (endswith ".tfa" (MLST.fname f)) ||
  match MLST.fcontent f with
  | Some _ => negb (MLST.fundecodable f)
  | None => false
  end.

Definition entry_readable (e : MLST.dir_entry) : bool :=
  match e with
  | MLST.PlainFile _ => true
  | MLST.Directory _ listing => forallb file_readable listing
  end.

Definition tree_readable (tree : list MLST.dir_entry) : bool :=
  forallb entry_readable tree.

Definition is_append_to (out : string) (e : event) : bool :=
  match e with
  | EvAppend path _ => String.eqb path out
  | _ => false
  end.

(** The statement [m] returns, adds [text] to the file at [out], and calls
    nothing but writes to that file. *)
Definition appends (out text : string) (m : M MLST.Self unit) : Prop :=
  forall s old,
    mlst_file out s = Some old ->
    fst (m s) = Return tt /\
    mlst_file out (snd (m s)) = Some (old +:+ text) /\
    MLST.output_dir (snd (m s)) = MLST.output_dir s /\
    exists evs,
      log (MLST.world (snd (m s))) = log (MLST.world s) ++ evs /\
      forallb (is_append_to out) evs = true.

(** The arguments [make_blast_database] passes to makeblastdb. *)
Definition makeblastdb_argv (blast_file : string) : list string :=
  ["makeblastdb"; "-hash_index"; "-in"; blast_file; "-dbtype"; "nucl";
   "-title"; "PubMLST"; "-parse_seqids"].

(** The stages of [make_blast_database] before the merge go through. *)
Definition merge_reached (env : MLST.Env) : bool :=
  (negb (MLST.dst_exists env) || MLST.rmtree_dst env) &&
  MLST.move_src env && MLST.makedirs_blast env && MLST.open_blast env.

(** The calls of [make_blast_database] before the merge. *)
Definition merge_preamble (env : MLST.Env) (d : string) : list event :=
  (if MLST.dst_exists env then [EvRmtree (path_join d "pubmlst")] else []) ++
  [EvMove (path_join (MLST.getcwd env) "pubmlst") (path_join d "pubmlst");
   EvMkdir (path_join d "blast")].


(** The object once [read_input_json] and [download_pubmlst_databases] have
    gone through, [p] being the directory the job file names. *)
Definition mlst_after_download (env : MLST.Env) (p : string) (s0 : MLST.Self)
  : MLST.Self :=
  let s1 := MLST.set_extra_files_path (Some p) s0 in
  let s2 := MLST.set_world (emit (EvMkdir p) (MLST.world s1)) s1 in
  let s3 := MLST.set_output_dir (Some (MLST.abspath env p)) s2 in
  MLST.set_world
    (emit (EvRun ["mlst-download_pub_mlst"; "-d"; "pubmlst"]) (MLST.world s3))
    s3.

(** The object when the merge loop of [make_blast_database] starts: the
    tree moved, the combined file opened for appending. *)
Definition merge_start (env : MLST.Env) (d : string) (s : MLST.Self)
  : MLST.Self :=
  let out := path_join (path_join d "blast") "mlst.fa" in
  MLST.set_world
    {| files := <[out := default "" (files (MLST.world s) !! out)]>
                  (files (MLST.world s));
       log := log (MLST.world s) ++ merge_preamble env d |}
    s.

(** The calls of [download_scheme_species_map] when all of it goes through. *)
Definition species_map_calls (d text : string) : list event :=
  [EvUrlopen MLST.scheme_species_map_url;
   EvTruncate (path_join d "scheme_species_map.tab");
   EvWriteText (path_join d "scheme_species_map.tab") text].


Definition mlst_env_index_fails : MLST.Env :=
  {| MLST.input := Params "/tmp/x";
     MLST.makedirs_extra := true;
     MLST.abspath := fun p => p;
     MLST.getcwd := "/job";
     MLST.download := Exited 0;
     MLST.dst_exists := false;
     MLST.rmtree_dst := true;
     MLST.move_src := true;
     MLST.makedirs_blast := true;
     MLST.open_blast := true;
     MLST.pubmlst := sample_tree;
     MLST.makeblastdb := Exited 1;
     MLST.urlopen := true;
     MLST.open_map := true;
     MLST.map_body := None;
     MLST.dump_json := true |}.


(** The sample tree followed by a scheme whose only sequence file cannot
    be read. *)
Definition mlst_env_unreadable_file : MLST.Env :=
  {| MLST.input := Params "/tmp/x";
     MLST.makedirs_extra := true;
     MLST.abspath := fun p => p;
     MLST.getcwd := "/job";
     MLST.download := Exited 0;
     MLST.dst_exists := false;
     MLST.rmtree_dst := true;
     MLST.move_src := true;
     MLST.makedirs_blast := true;
     MLST.open_blast := true;
     MLST.pubmlst :=
       sample_tree ++
       [MLST.Directory "senterica"
          [{| MLST.fname := "aroC.tfa"; MLST.fcontent := None;
         MLST.fundecodable := false |}]];
     MLST.makeblastdb := Exited 0;
     MLST.urlopen := true;
     MLST.open_map := true;
     MLST.map_body := None;
     MLST.dump_json := true |}.


(** ** variant4b.py *)

(** The field at [i] of a row is there and is "FULL". *)
Definition full_at (data : list string) (i : nat) : bool :=
  match data !! i with
  | Some field => String.eqb field "FULL"
  | None => false
  end.

Definition no_tab (field : string) : Prop :=
  contains Variant4b.tab field = false.

(** A table of two rows: in the first the three genes are FULL, the second
    lacks one of them and has no final newline. *)
Definition lissero_header : string :=
  "ID" +:+ Variant4b.tab +:+ "SEROTYPE" +:+ Variant4b.tab +:+
  "LMO0737" +:+ Variant4b.tab +:+ "ORF2110" +:+ Variant4b.tab +:+
  "ORF2819" +:+ nl.

Definition lissero_row_4b : string :=
  "s1" +:+ Variant4b.tab +:+ "4b" +:+ Variant4b.tab +:+
  "FULL" +:+ Variant4b.tab +:+ "FULL" +:+ Variant4b.tab +:+ "FULL" +:+ nl.

Definition lissero_row_other : string :=
  "s2" +:+ Variant4b.tab +:+ "1/2a" +:+ Variant4b.tab +:+
  "FULL" +:+ Variant4b.tab +:+ "NONE" +:+ Variant4b.tab +:+ "FULL".


(** The network is down: the species-map URL cannot be opened. *)
Definition mlst_env_offline : MLST.Env :=
  {| MLST.input := Params "/tmp/x";
     MLST.makedirs_extra := true;
     MLST.abspath := fun p => p;
     MLST.getcwd := "/job";
     MLST.download := Exited 0;
     MLST.dst_exists := false;
     MLST.rmtree_dst := true;
     MLST.move_src := true;
     MLST.makedirs_blast := true;
     MLST.open_blast := true;
     MLST.pubmlst := sample_tree;
     MLST.makeblastdb := Exited 0;
     MLST.urlopen := false;
     MLST.open_map := true;
     MLST.map_body := None;
     MLST.dump_json := true |}.


(** ** create_shed_yaml.py *)

(** Every whitespace character of the text is a plain space that does not
    follow another whitespace character; [after_space] says that the
    character before the text was one. *)
Fixpoint single_spaced (after_space : bool) (s : string) : bool :=
  match s with
  | "" => true
  | String c s' =>
      if isspace c then
        Ascii.eqb c " " && negb after_space && single_spaced true s'
      else single_spaced false s'
  end.


(** ** A dump that can fail *)

(** What the dump at the end of a run does to the world. *)
Definition dump_result (ok : bool) (path text : string) (w : World) : World :=
  if ok then emit (EvDump path text) (write_file path text w)
  else emit (EvDumpFailed path) w.

(** Between [w0] and [w] the dump of the catalog at [path] was tried once,
    as the last call, and the file could not be opened. *)
Definition dump_failed_once (path : string) (w0 w : World) : Prop :=
  exists evs, quiet evs /\ log w = log w0 ++ evs ++ [EvDumpFailed path].

(** A job file named in a directory that does not exist: it can neither be
    read nor be written. *)
Definition job_json_nodir : string := "/job/nodir/galaxy.json".


Definition mlst_env_no_job_dir : MLST.Env :=
  {| MLST.input := Unreadable;
     MLST.makedirs_extra := true;
     MLST.abspath := fun p => p;
     MLST.getcwd := "/job";
     MLST.download := Exited 0;
     MLST.dst_exists := false;
     MLST.rmtree_dst := true;
     MLST.move_src := true;
     MLST.makedirs_blast := true;
     MLST.open_blast := true;
     MLST.pubmlst := sample_tree;
     MLST.makeblastdb := Exited 0;
     MLST.urlopen := true;
     MLST.open_map := true;
     MLST.map_body := Some "ecoli Escherichia coli";
     MLST.dump_json := false |}.

(** Two scheme directories; the second record of the second scheme is the
    one followed through the merge. *)
Definition aroC_tfa : string :=
  ">aroC_1" +:+ nl +:+ "TTTT" +:+ nl +:+ ">aroC_2" +:+ nl +:+ "CCCC" +:+ nl.

Definition two_scheme_tree : list MLST.dir_entry :=
  [MLST.Directory "ecoli"
     [{| MLST.fname := "adk.tfa"; MLST.fcontent := Some adk_tfa;
         MLST.fundecodable := false |}];
   MLST.Directory "senterica"
     [{| MLST.fname := "senterica.txt"; MLST.fcontent := Some "ST aroC";
         MLST.fundecodable := false |};
      {| MLST.fname := "aroC.tfa"; MLST.fcontent := Some aroC_tfa;
         MLST.fundecodable := false |}];
   MLST.PlainFile "README"].

Definition mlst_env_two_schemes : MLST.Env :=
  {| MLST.input := Params "/tmp/x";
     MLST.makedirs_extra := true;
     MLST.abspath := fun p => p;
     MLST.getcwd := "/job";
     MLST.download := Exited 0;
     MLST.dst_exists := false;
     MLST.rmtree_dst := true;
     MLST.move_src := true;
     MLST.makedirs_blast := true;
     MLST.open_blast := true;
     MLST.pubmlst := two_scheme_tree;
     MLST.makeblastdb := Exited 0;
     MLST.urlopen := true;
     MLST.open_map := true;
     MLST.map_body := Some "ecoli Escherichia coli";
     MLST.dump_json := true |}.

(** The call a dump leaves in the log. *)
Definition dump_event (ok : bool) (path text : string) : event :=
  if ok then EvDump path text else EvDumpFailed path.

(** A job whose paths are not in normal form. *)
Definition amr_env_untidy : AmrFinderPlus.Env :=
  {| AmrFinderPlus.input := Params "/tmp/x/./sub//";
     AmrFinderPlus.mkdir_extra := true;
     AmrFinderPlus.mkdir_tmp := true;
     AmrFinderPlus.amrfinder_update := Exited 0;
     AmrFinderPlus.version_txt := Some ("3.12" +:+ nl);
     AmrFinderPlus.database_format_version_txt := Some ("2024-01-01.1" +:+ nl);
     AmrFinderPlus.copytree := true;
     AmrFinderPlus.dump_json := true |}.

Definition amr_env_untidy_update_fails : AmrFinderPlus.Env :=
  {| AmrFinderPlus.input := Params "/tmp/x/./sub//";
     AmrFinderPlus.mkdir_extra := true;
     AmrFinderPlus.mkdir_tmp := true;
     AmrFinderPlus.amrfinder_update := Exited 1;
     AmrFinderPlus.version_txt := None;
     AmrFinderPlus.database_format_version_txt := None;
     AmrFinderPlus.copytree := true;
     AmrFinderPlus.dump_json := true |}.

(** The object the [try] block of a run leaves, and the calls of
    [cleanup] on it. *)
Definition amr_attempt_state (json_path : string) (env : AmrFinderPlus.Env)
    (w0 : World) : AmrFinderPlus.Self :=
  snd (amr_attempt env (AmrFinderPlus.__init__ json_path "amrfinderplus-db" w0)).

Definition amr_cleanup_calls (s : AmrFinderPlus.Self) : list event :=
  match AmrFinderPlus.output_dir s with
  | Some d => [EvRmtree d]
  | None => []
  end.

(** What a sequence file that cannot be read to its end raises:
    [open] fails with OSError, the iteration with UnicodeDecodeError. *)
Definition read_error (f : MLST.scheme_file) : error :=
  match MLST.fcontent f with
  | Some _ => ValueError
  | None => OSError
  end.

(** The sample tree, where the second sequence file of a further scheme has
    bytes that cannot be decoded after its first record. *)
Definition mlst_env_undecodable_file : MLST.Env :=
  {| MLST.input := Params "/tmp/x";
     MLST.makedirs_extra := true;
     MLST.abspath := fun p => p;
     MLST.getcwd := "/job";
     MLST.download := Exited 0;
     MLST.dst_exists := false;
     MLST.rmtree_dst := true;
     MLST.move_src := true;
     MLST.makedirs_blast := true;
     MLST.open_blast := true;
     MLST.pubmlst :=
       sample_tree ++
       [MLST.Directory "senterica"
          [{| MLST.fname := "aroC.tfa";
              MLST.fcontent := Some (">aroC_1" +:+ nl +:+ "TTTT" +:+ nl);
              MLST.fundecodable := true |};
           {| MLST.fname := "zzz.tfa";
              MLST.fcontent := Some (">zzz_1" +:+ nl);
              MLST.fundecodable := false |}];
        MLST.PlainFile "README"];
     MLST.makeblastdb := Exited 0;
     MLST.urlopen := true;
     MLST.open_map := true;
     MLST.map_body := None;
     MLST.dump_json := true |}.

(** * Properties *)

(** ** Text primitives *)

Lemma startswith_empty s : startswith "" s = true.
Proof. by destruct s. Qed.

Lemma concat_file_lines s : fold_right String.append "" (file_lines s) = s.
Proof.
  induction s as [|c s IH]; simpl; [done|].
  destruct (Ascii.eqb c nl_char); simpl; [by rewrite IH|].
  destruct (file_lines s) as [|l ls]; simpl in *; by rewrite <- IH.
Qed.

(** ** Frames *)

Lemma quiet_app evs1 evs2 : quiet evs1 -> quiet evs2 -> quiet (evs1 ++ evs2).
Proof. unfold quiet. rewrite forallb_app. by intros -> ->. Qed.

Section Frame.
Context {S X : Type} `{HasWorld S} (fixed : S -> X).
Hypothesis world_with : forall w s, world_of (with_world w s) = w.
Hypothesis fixed_with : forall w s, fixed (with_world w s) = fixed s.

Local Abbreviation frame := (frame fixed).
Local Abbreviation keeps := (keeps fixed).
Local Abbreviation mild := (mild (S:=S)).

Lemma frame_refl s : frame s s.
Proof. split; [done|]. exists []. by rewrite app_nil_r. Qed.

Lemma frame_trans s1 s2 s3 : frame s1 s2 -> frame s2 s3 -> frame s1 s3.
Proof.
  intros [Hf1 (e1 & Hl1 & Hq1)] [Hf2 (e2 & Hl2 & Hq2)].
  split; [congruence|].
  exists (e1 ++ e2). split; [|by apply quiet_app].
  by rewrite Hl2, Hl1, app_assoc.
Qed.

Lemma keeps_ret {A} (a : A) : keeps (ret a).
Proof. intros s. apply frame_refl. Qed.

Lemma keeps_raise {A} x : keeps (@raise S A x).
Proof. intros s. apply frame_refl. Qed.

Lemma keeps_lift {A} (r : result A) : keeps (lift r).
Proof. intros s. apply frame_refl. Qed.

Lemma keeps_get : keeps (@get S).
Proof. intros s. apply frame_refl. Qed.

Lemma keeps_modify (f : S -> S) :
  (forall s, fixed (f s) = fixed s) ->
  (forall s, world_of (f s) = world_of s) ->
  keeps (modify f).
Proof.
  intros Hf Hw s. split; simpl; [done|].
  exists []. by rewrite Hw, app_nil_r.
Qed.

Lemma keeps_act (f : World -> World) :
  (forall w, exists evs, log (f w) = log w ++ evs /\ quiet evs) ->
  keeps (act f).
Proof.
  intros Hf s. split; simpl; [done|]. by rewrite world_with.
Qed.

Lemma keeps_bind {A B} (m : M S A) (k : A -> M S B) :
  keeps m -> (forall a, keeps (k a)) -> keeps (bind m k).
Proof.
  intros Hm Hk s. unfold bind. specialize (Hm s).
  destruct (m s) as [[a|x] s1]; simpl in *; [|done].
  eapply frame_trans; [done|]. apply Hk.
Qed.

Lemma keeps_try_except {A} (body : M S A) catches handler :
  keeps body -> (forall x, keeps (handler x)) ->
  keeps (try_except body catches handler).
Proof.
  intros Hb Hh s. unfold try_except. specialize (Hb s).
  destruct (body s) as [[a|x] s1]; simpl in *; [done|].
  destruct (catches x); [|done].
  eapply frame_trans; [done|]. apply Hh.
Qed.

Lemma keeps_for_each {Y} (xs : list Y) (body : Y -> M S unit) :
  (forall x, keeps (body x)) -> keeps (for_each xs body).
Proof.
  intros Hb. induction xs as [|x xs IH]; simpl.
  - apply keeps_ret.
  - apply keeps_bind; [apply Hb | intros _; apply IH].
Qed.

Lemma keeps_when b (m : M S unit) : keeps m -> keeps (when b m).
Proof. destruct b; simpl; [done|]. intros _. apply keeps_ret. Qed.

Lemma mild_ret {A} (a : A) : mild (@ret S A a).
Proof. intros s x; simpl; discriminate. Qed.

Lemma mild_raise {A} e : mild (@raise S A (Exception e)).
Proof. intros s x; simpl. by intros [= <-]. Qed.

Lemma mild_get : mild (@get S).
Proof. intros s x; simpl; discriminate. Qed.

Lemma mild_modify f : mild (@modify S f).
Proof. intros s x; simpl; discriminate. Qed.

Lemma mild_act f : mild (act f).
Proof. apply mild_modify. Qed.

Lemma mild_load_input i : mild (lift (load_input i)).
Proof. intros s x. destruct i; simpl; try discriminate; by intros [= <-]. Qed.

Lemma mild_check_run o : mild (lift (check_run o)).
Proof.
  intros s x. destruct o as [rc|]; simpl; [|by intros [= <-]].
  destruct (rc =? 0)%Z; [discriminate | by intros [= <-]].
Qed.

Lemma mild_bind {A B} (m : M S A) (k : A -> M S B) :
  mild m -> (forall a, mild (k a)) -> mild (bind m k).
Proof.
  intros Hm Hk s x. unfold bind. specialize (Hm s).
  destruct (m s) as [[a|y] s1]; simpl in *.
  - apply Hk.
  - intros [= <-]. by apply Hm.
Qed.

Lemma mild_try_except {A} (body : M S A) catches handler :
  mild body -> (forall x, mild (handler x)) ->
  mild (try_except body catches handler).
Proof.
  intros Hb Hh s x. unfold try_except. specialize (Hb s).
  destruct (body s) as [[a|y] s1]; simpl in *; [discriminate|].
  destruct (catches y); [apply Hh|].
  intros [= <-]. by apply Hb.
Qed.

Lemma mild_for_each {Y} (xs : list Y) (body : Y -> M S unit) :
  (forall x, mild (body x)) -> mild (for_each xs body).
Proof.
  intros Hb. induction xs as [|x xs IH]; simpl.
  - apply mild_ret.
  - apply mild_bind; [apply Hb | intros _; apply IH].
Qed.

Lemma mild_when b (m : M S unit) : mild m -> mild (when b m).
Proof. destruct b; simpl; [done|]. intros _. apply mild_ret. Qed.

Lemma keeps_os_call e ok : is_dump e = false -> keeps (os_call e ok).
Proof.
  intros He. apply keeps_bind.
  - apply keeps_act. intros w. exists [e]. split; [done|].
    unfold quiet; simpl. by rewrite He.
  - intros _. destruct ok; [apply keeps_ret | apply keeps_raise].
Qed.

Lemma mild_os_call e ok : mild (os_call e ok).
Proof.
  apply mild_bind; [apply mild_act|].
  intros _. destruct ok; [apply mild_ret | apply mild_raise].
Qed.

Lemma keeps_subprocess_run argv o : keeps (subprocess_run argv o).
Proof.
  apply keeps_bind; [|intros _; apply keeps_lift].
  apply keeps_act. intros w. by exists [EvRun argv].
Qed.

Lemma mild_subprocess_run argv o : mild (subprocess_run argv o).
Proof. apply mild_bind; [apply mild_act | intros _; apply mild_check_run]. Qed.

(** A handler for every [Exception] around a mild body always returns. *)
Lemma guarded_returns {A} (body : M S A) (handler : exn -> M S A) s :
  mild body ->
  (forall x s1, exists a, fst (handler x s1) = Return a) ->
  exists a, fst (try_except body is_Exception handler s) = Return a.
Proof.
  intros Hb Hh. unfold try_except. specialize (Hb s).
  destruct (body s) as [[a|x] s1]; simpl in *; [by exists a|].
  rewrite (Hb x eq_refl). apply Hh.
Qed.
End Frame.

(** Goals [keeps _ m] and [mild m] follow the syntax of [m]. *)
Ltac frame_step :=
  lazymatch goal with
  | |- keeps _ (bind _ _) => apply keeps_bind; [|intros ?]
  | |- keeps _ (ret _) => apply keeps_ret
  | |- keeps _ (raise _) => apply keeps_raise
  | |- keeps _ (lift _) => apply keeps_lift
  | |- keeps _ get => apply keeps_get
  | |- keeps _ (modify _) => apply keeps_modify; reflexivity
  | |- keeps _ (os_call _ _) =>
      apply keeps_os_call; [intros; reflexivity .. | reflexivity]
  | |- keeps _ (subprocess_run _ _) =>
      apply keeps_subprocess_run; intros; reflexivity
  | |- keeps _ (when _ _) => apply keeps_when
  | |- keeps _ (for_each _ _) => apply keeps_for_each; intros ?
  | |- keeps _ (try_except _ _ _) => apply keeps_try_except; [|intros ?]
  | |- keeps _ (act (emit _)) =>
      apply keeps_act; [intros; reflexivity .. |];
      intros ?; eexists [_]; split; reflexivity
  | |- keeps _ (act _) =>
      apply keeps_act; [intros; reflexivity .. |];
      intros ?;
      first [ exists []; split; [symmetry; apply app_nil_r | reflexivity]
            | eexists [_]; split; reflexivity ]
  | |- keeps _ (match ?x with _ => _ end) => destruct x
  | |- mild (bind _ _) => apply mild_bind; [|intros ?]
  | |- mild (ret _) => apply mild_ret
  | |- mild (raise (Exception _)) => apply mild_raise
  | |- mild (lift (load_input _)) => apply mild_load_input
  | |- mild get => apply mild_get
  | |- mild (modify _) => apply mild_modify
  | |- mild (act _) => apply mild_act
  | |- mild (os_call _ _) => apply mild_os_call
  | |- mild (subprocess_run _ _) => apply mild_subprocess_run
  | |- mild (when _ _) => apply mild_when
  | |- mild (for_each _ _) => apply mild_for_each; intros ?
  | |- mild (try_except _ _ _) => apply mild_try_except; [|intros ?]
  | |- mild (match ?x with _ => _ end) => destruct x
  end.

Ltac frame_auto := repeat frame_step.


(** ** AMRFinderPlus *)

Section AmrFacts.
Import AmrFinderPlus.

Lemma amr_run_unfold env :
  run env = try_finally (amr_attempt env) (cleanup ;; write_output_json env).
Proof. reflexivity. Qed.

Lemma amr_attempt_keeps env : keeps amr_fixed (amr_attempt env).
Proof.
  unfold amr_attempt, read_input_json, run_amrfinder_update, read_versions,
    copy_database, path_div, first_line.
  frame_auto.
Qed.

Lemma amr_body_mild env :
  mild (read_input_json env ;;
        run_amrfinder_update env ;;
        read_versions env ;;
        copy_database env).
Proof.
  unfold read_input_json, run_amrfinder_update, read_versions,
    copy_database, path_div, first_line.
  frame_auto.
Qed.

Lemma amr_attempt_returns env s : fst (amr_attempt env s) = Return tt.
Proof.
  destruct (guarded_returns
              (read_input_json env ;; run_amrfinder_update env ;;
               read_versions env ;; copy_database env)
              (fun _ => modify (set_version (Some "unknown")) ;;
                        modify (set_dbformat (Some "unknown")))
              s (amr_body_mild env)) as [[] Ha]; [|exact Ha].
  intros x s1. by exists tt.
Qed.
End AmrFacts.

(** ** PubMLST *)

Section MlstFacts.
Import MLST.

Lemma mlst_run_unfold env :
  run env = try_finally (mlst_attempt env) (write_output_json env).
Proof. reflexivity. Qed.

Lemma mlst_attempt_keeps env : keeps mlst_fixed (mlst_attempt env).
Proof.
  unfold mlst_attempt, read_input_json, download_pubmlst_databases,
    make_blast_database, download_scheme_species_map, join_output_dir,
    copy_scheme, copy_file, copy_line.
  frame_auto.
Qed.

Lemma mlst_rest_mild env : mild (mlst_rest env).
Proof.
  unfold mlst_rest, make_blast_database, download_scheme_species_map,
    join_output_dir, copy_scheme, copy_file, copy_line.
  frame_auto.
Qed.

End MlstFacts.

(** ** What a run leaves behind *)

Lemma quiet_snoc evs e : quiet evs -> is_dump e = false -> quiet (evs ++ [e]).
Proof.
  intros Hq He. apply quiet_app; [done|]. unfold quiet; simpl. by rewrite He.
Qed.

Lemma amr_attempt_descriptor env s0 :
  let s1 := snd (amr_attempt env s0) in
  AmrFinderPlus.version s1 = Some (fst (amr_descriptor env)) /\
  AmrFinderPlus.dbformat s1 = Some (snd (amr_descriptor env)).
Proof.
  unfold amr_descriptor, amr_upstream_ok.
  destruct env as [i me mt u v d c dj], s0 as [jp db od ef ve df w]; simpl.
  unfold amr_attempt, try_except, AmrFinderPlus.read_input_json,
    AmrFinderPlus.run_amrfinder_update, AmrFinderPlus.read_versions,
    AmrFinderPlus.copy_database, AmrFinderPlus.path_div,
    AmrFinderPlus.first_line, subprocess_run, os_call, bind, lift, act,
    modify, get, ret, raise; simpl.
  destruct i; simpl; try done.
  destruct me; simpl; [|done].
  destruct mt; simpl; [|done].
  destruct u as [rc|]; simpl; [|done].
  destruct (rc =? 0)%Z; simpl; [|done].
  destruct v as [v|]; simpl; [|done].
  destruct d as [d|]; simpl; [|done].
  by destruct c.
Qed.

(** The world in which the dump is tried: the one the [try] block and
    [cleanup] leave. *)
Lemma amr_run_spec env s0 :
  let text := dumps 0 (AmrFinderPlus.catalog_entry
                         (snd (amr_attempt env s0))) in
  exists w evs,
    quiet evs /\
    log w = log (AmrFinderPlus.world s0) ++ evs /\
    snd (AmrFinderPlus.run env s0) =
      AmrFinderPlus.set_world
        (dump_result (AmrFinderPlus.dump_json env)
           (AmrFinderPlus.json_path s0) text w)
        (snd (amr_attempt env s0)) /\
    fst (AmrFinderPlus.run env s0) =
      if AmrFinderPlus.dump_json env then Return tt
      else Raise (Exception OSError).
Proof.
  rewrite amr_run_unfold. unfold try_finally.
  destruct (amr_attempt_keeps env s0) as [Hfix (evs & Hlog & Hq)].
  pose proof (amr_attempt_returns env s0) as Hret.
  destruct (amr_attempt env s0) as [r1 s1]; simpl in *.
  injection Hfix as Hjp Hdb.
  unfold AmrFinderPlus.cleanup, AmrFinderPlus.write_output_json, bind, get,
    json_dump_to, dump_result.
  destruct s1 as [jp db od ef v d w]; simpl in *. subst.
  destruct od as [dir|], (AmrFinderPlus.dump_json env); simpl.
  - exists (emit (EvRmtree dir) w), (evs ++ [EvRmtree dir]).
    split; [by apply quiet_snoc|]. split; [|done].
    simpl. by rewrite Hlog, <- app_assoc.
  - exists (emit (EvRmtree dir) w), (evs ++ [EvRmtree dir]).
    split; [by apply quiet_snoc|]. split; [|done].
    simpl. by rewrite Hlog, <- app_assoc.
  - by exists w, evs.
  - by exists w, evs.
Qed.

Lemma dump_result_published path text w0 w evs :
  quiet evs -> log w = log w0 ++ evs ->
  published_once path text w0 (dump_result true path text w).
Proof.
  intros Hq Hlog. split; [|apply lookup_insert_eq].
  exists evs. split; [done|]. simpl. by rewrite Hlog, <- app_assoc.
Qed.

Lemma dump_result_failed path text w0 w evs :
  quiet evs -> log w = log w0 ++ evs ->
  dump_failed_once path w0 (dump_result false path text w).
Proof.
  intros Hq Hlog. exists evs. split; [done|]. simpl.
  by rewrite Hlog, <- app_assoc.
Qed.

Lemma mlst_run_spec env s0 :
  let text := dumps 0 (MLST.catalog_entry s0) in
  MLST.world (snd (MLST.run env s0)) =
    dump_result (MLST.dump_json env) (MLST.json_path s0) text
      (MLST.world (snd (mlst_attempt env s0))) /\
  fst (MLST.run env s0) =
    (if MLST.dump_json env then fst (mlst_attempt env s0)
     else Raise (Exception OSError)) /\
  MLST.db_name (snd (MLST.run env s0)) = MLST.db_name s0.
Proof.
  rewrite mlst_run_unfold. unfold try_finally.
  destruct (mlst_attempt_keeps env s0) as [Hfix _].
  destruct (mlst_attempt env s0) as [r1 s1]; simpl in *.
  injection Hfix as Hjp Hdb.
  unfold MLST.write_output_json, bind, get, json_dump_to, dump_result.
  destruct s1 as [jp ef od ts db w]; simpl in *. subst.
  by destruct (MLST.dump_json env).
Qed.

Lemma mlst_attempt_result env s0 :
  fst (mlst_attempt env s0) =
    if mlst_download_returned_nonzero env then Raise (SystemExit 1)
    else Return tt.
Proof.
  unfold mlst_attempt, mlst_download_returned_nonzero.
  fold (mlst_rest env).
  generalize (mlst_rest_mild env). generalize (mlst_rest env).
  intros rest Hrest.
  unfold try_except, MLST.read_input_json, MLST.download_pubmlst_databases,
    try_except, subprocess_run, os_call, bind, lift, act, modify, ret, raise.
  simpl.
  destruct (MLST.input env); simpl; try done.
  destruct (MLST.makedirs_extra env); simpl; [|done].
  destruct (MLST.download env) as [rc|]; simpl; [|done].
  destruct (rc =? 0)%Z; simpl; [|done].
  match goal with |- context [rest ?s] => specialize (Hrest s) end.
  match goal with |- context [rest ?s] => destruct (rest s) as [[[]|x] s3] end;
    simpl in *; [done|].
  by rewrite (Hrest x eq_refl).
Qed.

Lemma mlst_entry_by_name s s' :
  MLST.db_name s = MLST.db_name s' ->
  MLST.catalog_entry s = MLST.catalog_entry s'.
Proof. unfold MLST.catalog_entry. by intros ->. Qed.

(** ** Published entries *)

Lemma amr_published_fields jp env w0 :
  let e := amr_published_entry jp env w0 in
  let table := "amrfinderplus_versioned_database" in
  let v := fst (amr_descriptor env) in
  let f := snd (amr_descriptor env) in
  entry_field table "value" e =
    Some (JString ("amrfinderplus_" +:+ v +:+ "_" +:+ f)) /\
  entry_field table "name" e = Some (JString (v +:+ " (" +:+ f +:+ ")")) /\
  entry_field table "db_version" e = Some (JString f) /\
  entry_field table "path" e = Some (JString "amrfinderplus-db").
Proof.
  unfold amr_published_entry.
  set (s0 := AmrFinderPlus.__init__ jp "amrfinderplus-db" w0).
  destruct (amr_run_spec env s0) as (w & evs & _ & _ & Hs & _).
  destruct (amr_attempt_descriptor env s0) as [Hv Hf].
  destruct (amr_attempt_keeps env s0) as [Hfix _].
  rewrite Hs. clear Hs.
  destruct (snd (amr_attempt env s0)) as [jp1 db od ef ve df w1].
  simpl in *. injection Hfix as _ ->. by subst.
Qed.

Lemma amr_published_entry_attempt jp env w0 :
  amr_published_entry jp env w0 =
  AmrFinderPlus.catalog_entry
    (snd (amr_attempt env (AmrFinderPlus.__init__ jp "amrfinderplus-db" w0))).
Proof.
  unfold amr_published_entry.
  set (s0 := AmrFinderPlus.__init__ jp "amrfinderplus-db" w0).
  destruct (amr_run_spec env s0) as (w & evs & _ & _ & Hs & _).
  rewrite Hs. by destruct (snd (amr_attempt env s0)).
Qed.

Lemma amr_main_spec jp env w0 :
  fst (AmrFinderPlus.main jp env w0) =
    (if AmrFinderPlus.dump_json env then 0 else 1)%Z /\
  (AmrFinderPlus.dump_json env = true ->
   published_once (pure_path jp) (dumps 0 (amr_published_entry jp env w0)) w0
     (snd (AmrFinderPlus.main jp env w0))) /\
  (AmrFinderPlus.dump_json env = false ->
   dump_failed_once (pure_path jp) w0 (snd (AmrFinderPlus.main jp env w0))).
Proof.
  rewrite amr_published_entry_attempt. unfold AmrFinderPlus.main.
  set (s0 := AmrFinderPlus.__init__ jp "amrfinderplus-db" w0).
  destruct (amr_run_spec env s0) as (w & evs & Hq & Hlog & Hs & Hr).
  destruct (AmrFinderPlus.run env s0) as [r s]; simpl in *.
  subst r s.
  destruct (snd (amr_attempt env s0)) as [jp1 db od ef ve df w1]; simpl.
  split; [by destruct (AmrFinderPlus.dump_json env)|].
  split; intros ->.
  - by apply (dump_result_published _ _ _ _ evs).
  - by apply (dump_result_failed _ _ _ _ evs).
Qed.

Lemma mlst_main_spec jp now env w0 :
  fst (MLST.main jp now env w0) =
    (if mlst_download_returned_nonzero env || negb (MLST.dump_json env)
     then 1 else 0)%Z /\
  mlst_published_entry jp now env w0 =
    MLST.catalog_entry (MLST.__init__ jp now empty_world) /\
  (MLST.dump_json env = true ->
   published_once jp (dumps 0 (mlst_published_entry jp now env w0)) w0
     (snd (MLST.main jp now env w0))) /\
  (MLST.dump_json env = false ->
   dump_failed_once jp w0 (snd (MLST.main jp now env w0))).
Proof.
  unfold MLST.main, mlst_published_entry.
  set (s0 := MLST.__init__ jp now w0).
  destruct (mlst_run_spec env s0) as (Hw & Hr & Hdb).
  pose proof (mlst_attempt_result env s0) as Hres.
  destruct (mlst_attempt_keeps env s0) as [_ (evs & Hlog & Hq)].
  rewrite (mlst_entry_by_name _ s0 Hdb).
  destruct (MLST.run env s0) as [r s]; simpl in *.
  rewrite Hr, Hres, Hw. split; [|split; [done|split; intros ->]].
  - by destruct (mlst_download_returned_nonzero env), (MLST.dump_json env).
  - by apply (dump_result_published _ _ _ _ evs).
  - by apply (dump_result_failed _ _ _ _ evs).
Qed.

Lemma mlst_entry_fields jp now :
  let e := MLST.catalog_entry (MLST.__init__ jp now empty_world) in
  let name := "mlst_database_" +:+ strftime_stamp now in
  entry_field "mlst" "value" e = Some (JString name) /\
  entry_field "mlst" "name" e = Some (JString name) /\
  entry_field "mlst" "path" e = Some (JString "mlst-db") /\
  entry_field "mlst" "db_version" e = None.
Proof. done. Qed.

Lemma amr_descriptor_failed env :
  amr_upstream_ok env = false -> amr_descriptor env = ("unknown", "unknown").
Proof. unfold amr_descriptor. by intros ->. Qed.

(** ** The claims on publication, exit status and versions *)










Lemma read_versions_ok env s dir c1 c2 :
  AmrFinderPlus.output_dir s = Some dir ->
  AmrFinderPlus.version_txt env = Some c1 ->
  AmrFinderPlus.database_format_version_txt env = Some c2 ->
  AmrFinderPlus.read_versions env s =
    (Return tt,
     AmrFinderPlus.set_dbformat (Some (strip (readline c2)))
       (AmrFinderPlus.set_version (Some (strip (readline c1))) s)).
Proof.
  intros Hd H1 H2.
  unfold AmrFinderPlus.read_versions, AmrFinderPlus.path_div,
    AmrFinderPlus.first_line, bind, get, modify, ret.
  by rewrite Hd, H1, H2.
Qed.

Lemma amr_upstream_needs_versions env :
  AmrFinderPlus.version_txt env = None \/
  AmrFinderPlus.database_format_version_txt env = None ->
  amr_upstream_ok env = false.
Proof.
  unfold amr_upstream_ok. intros [-> | ->]; rewrite ?andb_false_r; done.
Qed.

(** C7. [read_versions] takes the first line of each metadata file, stripped
    of surrounding whitespace: files starting "3.12\n" and "2024-01-01.1\n"
    give version "3.12" and format "2024-01-01.1". When either file is
    missing or unreadable the descriptor the run ends with is the sentinel
    ("unknown", "unknown"), and, the catalog file being writable, the run
    still ends normally (exit status 0) and publishes, once, the entry of
    that descriptor. *)
Theorem C7_version_resolution :
  forall (json_path : string) (w0 : World) (env : AmrFinderPlus.Env),
    (forall s dir c1 c2,
       AmrFinderPlus.output_dir s = Some dir ->
       AmrFinderPlus.version_txt env = Some c1 ->
       AmrFinderPlus.database_format_version_txt env = Some c2 ->
       AmrFinderPlus.read_versions env s =
         (Return tt,
          AmrFinderPlus.set_dbformat (Some (strip (readline c2)))
            (AmrFinderPlus.set_version (Some (strip (readline c1))) s))) /\
    (forall s dir rest1 rest2,
       AmrFinderPlus.output_dir s = Some dir ->
       AmrFinderPlus.version_txt env = Some ("3.12" +:+ nl +:+ rest1) ->
       AmrFinderPlus.database_format_version_txt env =
         Some ("2024-01-01.1" +:+ nl +:+ rest2) ->
       let s' := snd (AmrFinderPlus.read_versions env s) in
       fst (AmrFinderPlus.read_versions env s) = Return tt /\
       AmrFinderPlus.version s' = Some "3.12" /\
       AmrFinderPlus.dbformat s' = Some "2024-01-01.1") /\
    (AmrFinderPlus.version_txt env = None \/
     AmrFinderPlus.database_format_version_txt env = None ->
     let e := amr_published_entry json_path env w0 in
     let table := "amrfinderplus_versioned_database" in
     amr_descriptor env = ("unknown", "unknown") /\
     entry_field table "value" e =
       Some (JString "amrfinderplus_unknown_unknown") /\
     entry_field table "db_version" e = Some (JString "unknown") /\
     (AmrFinderPlus.dump_json env = true ->
      fst (AmrFinderPlus.main json_path env w0) = 0%Z /\
      published_once (pure_path json_path) (dumps 0 e) w0
        (snd (AmrFinderPlus.main json_path env w0)))).
Proof.
  intros jp w0 env. split; [|split].
  - intros s dir c1 c2. apply read_versions_ok.
  - intros s dir rest1 rest2 Hd H1 H2.
    by rewrite (read_versions_ok env s dir _ _ Hd H1 H2).
  - intros Hmiss. simpl.
    pose proof (amr_descriptor_failed env (amr_upstream_needs_versions env Hmiss))
      as Hdesc.
    destruct (amr_main_spec jp env w0) as (Hexit & Hpub & _).
    destruct (amr_published_fields jp env w0) as (Hv & _ & Hf & _).
    rewrite Hdesc in Hv, Hf.
    split; [exact Hdesc|]. split; [exact Hv|]. split; [exact Hf|].
    intros Hd. split; [by rewrite Hexit, Hd | by apply Hpub].
Qed.

Lemma C7_version_resolution_witness :
  (let s := AmrFinderPlus.set_output_dir (Some "/tmp/x/tmp_download")
              (AmrFinderPlus.__init__ job_json "amrfinderplus-db" empty_world) in
   let s' := snd (AmrFinderPlus.read_versions amr_env_ok s) in
   AmrFinderPlus.version s' = Some "3.12" /\
   AmrFinderPlus.dbformat s' = Some "2024-01-01.1") /\
  AmrFinderPlus.version_txt amr_env_no_version_file = None /\
  fst (AmrFinderPlus.main job_json amr_env_no_version_file empty_world) = 0%Z /\
  amr_descriptor amr_env_no_version_file = ("unknown", "unknown").
Proof.
  split.
  - apply (proj1 (proj2 (C7_version_resolution job_json empty_world amr_env_ok))
             _ "/tmp/x/tmp_download" "" ""); reflexivity.
  - split; [reflexivity|].
    destruct (proj2 (proj2 (C7_version_resolution job_json empty_world
                              amr_env_no_version_file))
                (or_introl eq_refl)) as (Hdesc & _ & _ & Hrun).
    exact (conj (proj1 (Hrun eq_refl)) Hdesc).
Defined.

(** C8, as stated, fails on uniqueness: two PubMLST objects constructed at
    different instants of the same second publish the same value, and an
    AMRFinderPlus run repeated on the world the first one left publishes
    the same value again. *)
Lemma C8_value_repeats_across_runs :
  noon <> noon_later /\
  entry_field "mlst" "value"
    (mlst_published_entry job_json noon mlst_env_ok empty_world) =
  entry_field "mlst" "value"
    (mlst_published_entry job_json noon_later mlst_env_ok empty_world) /\
  entry_field "amrfinderplus_versioned_database" "value"
    (amr_published_entry job_json amr_env_ok empty_world) =
  entry_field "amrfinderplus_versioned_database" "value"
    (amr_published_entry job_json amr_env_ok
       (snd (AmrFinderPlus.main job_json amr_env_ok empty_world))).
Proof.
  split; [discriminate|]. split; vm_compute; reflexivity.
Qed.

(** C8, amended. The published value is a function of the descriptor held
    at publication (AMRFinderPlus: "amrfinderplus_<version>_<dbformat>") or
    of the construction timestamp formatted to the second (PubMLST:
    "mlst_database_<timestamp>"). Two PubMLST runs publish the same value
    exactly when their formatted timestamps agree; uniqueness across
    repeated runs is not guaranteed. *)
Theorem C8_value_derivation :
  (forall jp env w0,
     entry_field "amrfinderplus_versioned_database" "value"
       (amr_published_entry jp env w0) =
     Some (JString ("amrfinderplus_" +:+ fst (amr_descriptor env) +:+ "_" +:+
                    snd (amr_descriptor env)))) /\
  (forall jp now env w0,
     entry_field "mlst" "value" (mlst_published_entry jp now env w0) =
     Some (JString ("mlst_database_" +:+ strftime_stamp now))) /\
  (forall jp1 jp2 now1 now2 env1 env2 w1 w2,
     entry_field "mlst" "value" (mlst_published_entry jp1 now1 env1 w1) =
     entry_field "mlst" "value" (mlst_published_entry jp2 now2 env2 w2)
     <-> strftime_stamp now1 = strftime_stamp now2).
Proof.
  assert (Hm : forall jp now env w0,
             entry_field "mlst" "value" (mlst_published_entry jp now env w0) =
             Some (JString ("mlst_database_" +:+ strftime_stamp now))).
  { intros jp now env w0.
    destruct (mlst_main_spec jp now env w0) as (_ & -> & _).
    apply mlst_entry_fields. }
  split; [|split].
  - intros jp env w0. apply amr_published_fields.
  - exact Hm.
  - intros jp1 jp2 now1 now2 env1 env2 w1 w2. rewrite !Hm. split.
    + simpl. intros [= Hts]. exact Hts.
    + by intros ->.
Qed.

(** C10. The PubMLST entry is fixed when the object is constructed: value
    and name are "mlst_database_<timestamp>", path is "mlst-db". Two runs
    whose timestamps agree hand the publisher the same entry, whatever the
    outside answered to either of them, and, the catalog file being
    writable in both, leave the same catalog text; a failed run's entry is
    the successful run's entry. *)
Theorem C10_mlst_entry_fixed_at_construction :
  forall (json_path : string) (now1 now2 : datetime)
         (env1 env2 : MLST.Env) (w1 w2 : World),
    strftime_stamp now1 = strftime_stamp now2 ->
    let e := MLST.catalog_entry (MLST.__init__ json_path now1 empty_world) in
    let name := "mlst_database_" +:+ strftime_stamp now1 in
    mlst_published_entry json_path now1 env1 w1 = e /\
    mlst_published_entry json_path now2 env2 w2 = e /\
    entry_field "mlst" "value" e = Some (JString name) /\
    entry_field "mlst" "name" e = Some (JString name) /\
    entry_field "mlst" "path" e = Some (JString "mlst-db") /\
    (MLST.dump_json env1 = true ->
     MLST.dump_json env2 = true ->
     files (snd (MLST.main json_path now1 env1 w1)) !! json_path =
       Some (dumps 0 e) /\
     files (snd (MLST.main json_path now2 env2 w2)) !! json_path =
       Some (dumps 0 e)).
Proof.
  intros jp now1 now2 env1 env2 w1 w2 Hts. simpl.
  destruct (mlst_main_spec jp now1 env1 w1) as (_ & He1 & Hf1 & _).
  destruct (mlst_main_spec jp now2 env2 w2) as (_ & He2 & Hf2 & _).
  assert (Hsame : MLST.catalog_entry (MLST.__init__ jp now2 empty_world) =
                  MLST.catalog_entry (MLST.__init__ jp now1 empty_world)).
  { apply mlst_entry_by_name. unfold MLST.__init__, MLST.db_name.
    by rewrite Hts. }
  rewrite He1 in Hf1. rewrite He2, Hsame in Hf2.
  split; [exact He1|]. split; [by rewrite He2|].
  destruct (mlst_entry_fields jp now1) as (Hv & Hn & Hp & _).
  split; [exact Hv|]. split; [exact Hn|]. split; [exact Hp|].
  intros Hd1 Hd2. split; [apply (Hf1 Hd1) | apply (Hf2 Hd2)].
Qed.

Lemma C10_mlst_entry_fixed_at_construction_witness :
  strftime_stamp noon = strftime_stamp noon_later /\
  files (snd (MLST.main job_json noon mlst_env_ok empty_world)) !! job_json =
  files (snd (MLST.main job_json noon_later mlst_env_download_fails
                empty_world)) !! job_json.
Proof.
  split; [reflexivity|].
  destruct (C10_mlst_entry_fixed_at_construction job_json noon noon_later
              mlst_env_ok mlst_env_download_fails empty_world empty_world
              eq_refl) as (_ & _ & _ & _ & _ & Hfiles).
  destruct (Hfiles eq_refl eq_refl) as [H1 H2].
  exact (eq_trans H1 (eq_sym H2)).
Defined.

(** ** The merge loop *)

Lemma for_each_app {S X} (xs ys : list X) (body : X -> M S unit) s :
  for_each (xs ++ ys) body s =
  (for_each xs body ;; for_each ys body) s.
Proof.
  revert s. induction xs as [|x xs IH]; intros s; simpl; [done|].
  unfold bind in *. destruct (body x s) as [[[]|e] s1]; [apply IH | done].
Qed.


Lemma copy_line_identifier out scheme rest s :
  contains "not a locus" (">" +:+ rest) = false ->
  MLST.copy_line out scheme (">" +:+ rest) s =
  act (append_file out (">" +:+ scheme +:+ "." +:+ rest)) s.
Proof. unfold MLST.copy_line. by intros ->. Qed.


Lemma startswith_gt line :
  startswith ">" line = true -> line = ">" +:+ slice1 line.
Proof.
  destruct line as [|c rest]; [done|]. cbn [startswith slice1].
  rewrite andb_true_r. intros Hc. apply Ascii.eqb_eq in Hc. by subst.
Qed.

Lemma append_file_content out text (s : MLST.Self) old :
  mlst_file out s = Some old ->
  mlst_file out (snd (act (append_file out text) s)) = Some (old +:+ text).
Proof.
  unfold mlst_file. intros Hold. simpl. rewrite Hold. apply lookup_insert_eq.
Qed.

Lemma append_cons x (a b : string) : String x a +:+ b = String x (a +:+ b).
Proof. reflexivity. Qed.

Lemma string_app_assoc (a b c : string) : (a +:+ b) +:+ c = a +:+ (b +:+ c).
Proof. induction a as [|x a IH]; [done|]. by rewrite !append_cons, IH. Qed.

Lemma string_app_nil_r (a : string) : a +:+ "" = a.
Proof. induction a as [|x a IH]; [done|]. by rewrite append_cons, IH. Qed.



(** ** The claims on the merge *)




(** C4: on the sample tree, a second [make_blast_database] into the same
    output directory (the tree downloaded again, the old copy removed)
    leaves the combined file with every record twice: the file is opened
    for appending and never emptied. *)
Theorem C4_second_merge_appends :
  let first := MLST.make_blast_database (mlst_env (Exited 0) false) mlst_ready in
  let second := MLST.make_blast_database (mlst_env (Exited 0) true) (snd first) in
  let text := ">ecoli.adk_1" +:+ nl +:+ "ACGT" +:+ nl +:+ "GGCC" +:+ nl in
  fst first = Return tt /\
  fst second = Return tt /\
  mlst_file "/tmp/x/blast/mlst.fa" (snd first) = Some text /\
  mlst_file "/tmp/x/blast/mlst.fa" (snd second) = Some (text +:+ text) /\
  text +:+ text <> text.
Proof. repeat split; vm_compute; (reflexivity || discriminate). Qed.



(** * Further properties of the two data managers *)

(** ** AMRFinderPlus: the calls of a run *)

Lemma calls_since_log w0 w evs :
  log w = log w0 ++ evs -> calls_since w0 w = evs.
Proof. unfold calls_since. intros ->. apply drop_app_length. Qed.

(** The calls of a run: those of the [try] block, then [cleanup], then the
    dump. *)
Lemma amr_calls_spec jp env w0 :
  let s1 := amr_attempt_state jp env w0 in
  amr_calls jp env w0 =
    calls_since w0 (AmrFinderPlus.world s1) ++ amr_cleanup_calls s1 ++
    [dump_event (AmrFinderPlus.dump_json env) (pure_path jp)
       (dumps 0 (amr_published_entry jp env w0))].
Proof.
  rewrite amr_published_entry_attempt.
  unfold amr_attempt_state, amr_calls, AmrFinderPlus.main.
  set (s0 := AmrFinderPlus.__init__ jp "amrfinderplus-db" w0).
  rewrite amr_run_unfold. unfold try_finally.
  destruct (amr_attempt_keeps env s0) as [Hfix (evs & Hlog & _)].
  destruct (amr_attempt env s0) as [r1 s1]; simpl in Hfix, Hlog |- *.
  injection Hfix as Hjp Hdb.
  destruct s1 as [jp1 db od ef v d w]; simpl in Hjp, Hdb, Hlog. subst jp1 db.
  cbn [AmrFinderPlus.world].
  rewrite (calls_since_log w0 w evs Hlog).
  unfold AmrFinderPlus.cleanup, AmrFinderPlus.write_output_json, bind, get,
    json_dump_to, dump_event, amr_cleanup_calls, act, raise, emit, write_file.
  cbn [AmrFinderPlus.output_dir AmrFinderPlus.json_path].
  destruct od as [dir|], (AmrFinderPlus.dump_json env), r1 as [[]|x];
    cbn -[dumps AmrFinderPlus.catalog_entry pure_path];
    apply calls_since_log; rewrite Hlog, <- ?app_assoc; reflexivity.
Qed.

Ltac amr_attempt_eval :=
  unfold amr_attempt_state, amr_attempt, try_except,
    AmrFinderPlus.read_input_json, AmrFinderPlus.run_amrfinder_update,
    AmrFinderPlus.read_versions, AmrFinderPlus.copy_database,
    AmrFinderPlus.path_div, AmrFinderPlus.first_line, subprocess_run,
    os_call, bind, lift, act, modify, get, ret, raise, emit;
  simpl.

(** The state a [try] block leaves when every stage went through. *)
Lemma amr_attempt_ok jp p env w0 :
  AmrFinderPlus.input env = Params p ->
  amr_upstream_ok env = true ->
  let extra := pure_path p in
  let tmp := pure_path (path_join extra "tmp_download") in
  let s1 := amr_attempt_state jp env w0 in
  AmrFinderPlus.output_dir s1 = Some tmp /\
  log (AmrFinderPlus.world s1) =
    log w0 ++
    [EvMkdir extra; EvMkdir tmp;
     EvRun ["amrfinder_update"; "-d"; tmp];
     EvCopytree (pure_path (path_join tmp "latest"))
                (pure_path (path_join extra "amrfinderplus-db"))].
Proof.
  destruct env as [i me mt u v d c dj]. intros Hi Hok.
  unfold amr_upstream_ok in Hok. simpl in Hi, Hok. subst i.
  destruct me, mt, u as [rc|], v as [v|], d as [d|], c;
    simpl in Hok; rewrite ?andb_false_r in Hok; try discriminate Hok.
  rewrite !andb_true_r in Hok.
  amr_attempt_eval. rewrite Hok. simpl. split; [reflexivity|].
  by rewrite <- !app_assoc.
Qed.

(** X1. A run in which every stage goes through and the catalog file can be
    opened for writing makes exactly six calls, in this order: the two
    mkdir, amrfinder_update on the temporary directory, the copy of its
    [latest] subtree to the permanent place, the removal of the temporary
    directory, the catalog dump. The paths are those [pathlib] builds from
    the path of the job file: repeated and trailing slashes and "."
    components are dropped. *)
Theorem amr_successful_run_calls :
  forall (json_path p : string) (env : AmrFinderPlus.Env) (w0 : World),
    AmrFinderPlus.input env = Params p ->
    amr_upstream_ok env = true ->
    AmrFinderPlus.dump_json env = true ->
    let extra := pure_path p in
    let tmp := pure_path (path_join extra "tmp_download") in
    amr_calls json_path env w0 =
      [EvMkdir extra; EvMkdir tmp;
       EvRun ["amrfinder_update"; "-d"; tmp];
       EvCopytree (pure_path (path_join tmp "latest"))
                  (pure_path (path_join extra "amrfinderplus-db"));
       EvRmtree tmp;
       EvDump (pure_path json_path)
         (dumps 0 (amr_published_entry json_path env w0))].
Proof.
  intros jp p env w0 Hi Hok Hdj extra tmp.
  destruct (amr_attempt_ok jp p env w0 Hi Hok) as [Hod Hlog].
  rewrite amr_calls_spec. unfold amr_cleanup_calls.
  rewrite Hod, (calls_since_log _ _ _ Hlog), Hdj. reflexivity.
Qed.

Lemma amr_successful_run_calls_witness :
  amr_calls "/job/./galaxy.json" amr_env_untidy empty_world =
    [EvMkdir "/tmp/x/sub"; EvMkdir "/tmp/x/sub/tmp_download";
     EvRun ["amrfinder_update"; "-d"; "/tmp/x/sub/tmp_download"];
     EvCopytree "/tmp/x/sub/tmp_download/latest"
                "/tmp/x/sub/amrfinderplus-db";
     EvRmtree "/tmp/x/sub/tmp_download";
     EvDump "/job/galaxy.json"
       (dumps 0 (amr_published_entry "/job/./galaxy.json" amr_env_untidy
                   empty_world))].
Proof.
  apply (amr_successful_run_calls "/job/./galaxy.json" "/tmp/x/./sub//"
           amr_env_untidy empty_world); reflexivity.
Defined.

Lemma mlst_calls_spec jp now env w0 :
  let s1 := snd (mlst_attempt env (MLST.__init__ jp now w0)) in
  mlst_calls jp now env w0 =
    calls_since w0 (MLST.world s1) ++
    [dump_event (MLST.dump_json env) jp
       (dumps 0 (mlst_published_entry jp now env w0))].
Proof.
  destruct (mlst_main_spec jp now env w0) as (_ & -> & _).
  unfold mlst_calls, MLST.main.
  set (s0 := MLST.__init__ jp now w0).
  destruct (mlst_run_spec env s0) as (Hw & _ & _).
  destruct (mlst_attempt_keeps env s0) as [_ (evs & Hlog & _)].
  change (log (MLST.world (snd (mlst_attempt env s0))) = log w0 ++ evs)
    in Hlog.
  destruct (MLST.run env s0) as [r s]; simpl in Hw |- *.
  rewrite Hw, (calls_since_log _ _ _ Hlog).
  apply calls_since_log. unfold dump_result, dump_event.
  destruct (MLST.dump_json env); simpl; rewrite Hlog, <- ?app_assoc;
    reflexivity.
Qed.

(** X2. When the job file cannot be read (missing, malformed, or without
    the expected keys), a run of either pipeline makes one call only, the
    attempt to dump the catalog into the job file: no directory is made or
    removed and no program is run. *)
Theorem unreadable_job_file_only_dumps :
  forall (json_path : string) (w0 : World),
    (forall env,
       input_ok (AmrFinderPlus.input env) = false ->
       amr_calls json_path env w0 =
         [dump_event (AmrFinderPlus.dump_json env) (pure_path json_path)
            (dumps 0 (amr_published_entry json_path env w0))]) /\
    (forall now env,
       input_ok (MLST.input env) = false ->
       mlst_calls json_path now env w0 =
         [dump_event (MLST.dump_json env) json_path
            (dumps 0 (mlst_published_entry json_path now env w0))]).
Proof.
  intros jp w0. split.
  - intros env Hi. rewrite amr_calls_spec.
    assert (Hs : AmrFinderPlus.output_dir (amr_attempt_state jp env w0) = None
                 /\ log (AmrFinderPlus.world (amr_attempt_state jp env w0)) =
                    log w0 ++ []).
    { destruct env as [i me mt u v d c dj]. simpl in Hi.
      destruct i; try discriminate Hi; amr_attempt_eval;
        by rewrite app_nil_r. }
    destruct Hs as [Hod Hlog]. unfold amr_cleanup_calls.
    by rewrite Hod, (calls_since_log _ _ _ Hlog).
  - intros now env Hi. rewrite mlst_calls_spec.
    assert (Hlog : log (MLST.world
                          (snd (mlst_attempt env (MLST.__init__ jp now w0)))) =
                   log w0 ++ []).
    { unfold mlst_attempt, try_except, MLST.read_input_json, bind, lift,
        load_input.
      destruct (MLST.input env); try discriminate Hi; simpl;
        by rewrite app_nil_r. }
    by rewrite (calls_since_log _ _ _ Hlog).
Qed.

Lemma unreadable_job_file_only_dumps_witness :
  length (amr_calls job_json amr_env_unreadable empty_world) = 1 /\
  mlst_calls job_json_nodir noon mlst_env_no_job_dir empty_world =
    [EvDumpFailed job_json_nodir].
Proof.
  destruct (unreadable_job_file_only_dumps job_json empty_world) as [Ha _].
  destruct (unreadable_job_file_only_dumps job_json_nodir empty_world)
    as [_ Hm].
  split.
  - by rewrite (Ha amr_env_unreadable eq_refl).
  - exact (Hm noon mlst_env_no_job_dir eq_refl).
Defined.

(** X3. Once the output directory has been made, every AMRFinderPlus run,
    whatever fails later, ends with the removal of the temporary download
    directory followed by the attempt to dump the catalog. *)
Theorem amr_cleanup_precedes_publication :
  forall (json_path p : string) (env : AmrFinderPlus.Env) (w0 : World),
    AmrFinderPlus.input env = Params p ->
    AmrFinderPlus.mkdir_extra env = true ->
    exists evs,
      amr_calls json_path env w0 =
        evs ++ [EvRmtree (pure_path (path_join (pure_path p) "tmp_download"));
                dump_event (AmrFinderPlus.dump_json env) (pure_path json_path)
                  (dumps 0 (amr_published_entry json_path env w0))].
Proof.
  intros jp p env w0 Hi Hme. rewrite amr_calls_spec.
  assert (Hod : AmrFinderPlus.output_dir (amr_attempt_state jp env w0) =
                Some (pure_path (path_join (pure_path p) "tmp_download"))).
  { destruct env as [i me mt u v d c dj]. simpl in Hi, Hme. subst i me.
    destruct mt, u as [rc|]; [destruct (rc =? 0)%Z eqn:Hrc| | |];
      [destruct v as [v|]; [destruct d as [d|]; [destruct c|]|]| | | |];
      amr_attempt_eval; rewrite ?Hrc; reflexivity. }
  unfold amr_cleanup_calls. rewrite Hod.
  exists (calls_since w0 (AmrFinderPlus.world (amr_attempt_state jp env w0))).
  reflexivity.
Qed.

Lemma amr_cleanup_precedes_publication_witness :
  exists evs,
    amr_calls job_json amr_env_untidy_update_fails empty_world =
      evs ++ [EvRmtree "/tmp/x/sub/tmp_download";
              dump_event true job_json
                (dumps 0 (amr_published_entry job_json
                            amr_env_untidy_update_fails empty_world))].
Proof.
  apply (amr_cleanup_precedes_publication job_json "/tmp/x/./sub//"
           amr_env_untidy_update_fails empty_world); reflexivity.
Defined.

(** X4. An AMRFinderPlus run copies the database to its permanent place
    exactly when the job file, both mkdir, amrfinder_update and both version
    files went through; amrfinder_update is run at most once (no retry). *)
Theorem amr_copy_only_after_versions :
  forall (json_path : string) (env : AmrFinderPlus.Env) (w0 : World),
    existsb is_copytree (amr_calls json_path env w0) = amr_reaches_copy env /\
    length (List.filter (is_run_of "amrfinder_update")
              (amr_calls json_path env w0)) <= 1.
Proof.
  intros jp env w0. rewrite amr_calls_spec.
  set (s1 := amr_attempt_state jp env w0).
  assert (Htail : forall l : list event,
            existsb is_copytree
              (l ++ amr_cleanup_calls s1 ++
               [dump_event (AmrFinderPlus.dump_json env) (pure_path jp)
                  (dumps 0 (amr_published_entry jp env w0))]) =
            existsb is_copytree l /\
            length (List.filter (is_run_of "amrfinder_update")
              (l ++ amr_cleanup_calls s1 ++
               [dump_event (AmrFinderPlus.dump_json env) (pure_path jp)
                  (dumps 0 (amr_published_entry jp env w0))])) =
            length (List.filter (is_run_of "amrfinder_update") l)).
  { intros l. rewrite existsb_app, List.filter_app, length_app.
    unfold amr_cleanup_calls, dump_event.
    destruct (AmrFinderPlus.output_dir s1), (AmrFinderPlus.dump_json env);
      simpl; rewrite ?orb_false_r; split; (reflexivity || lia). }
  destruct (Htail (calls_since w0 (AmrFinderPlus.world s1))) as [-> ->].
  clear Htail. subst s1.
  assert (Hlog : exists evs,
            log (AmrFinderPlus.world (amr_attempt_state jp env w0)) =
              log w0 ++ evs /\
            existsb is_copytree evs = amr_reaches_copy env /\
            length (List.filter (is_run_of "amrfinder_update") evs) <= 1).
  { destruct env as [i me mt u v d c dj]. unfold amr_reaches_copy. simpl.
    destruct i; [| | |destruct me; [destruct mt;
      [destruct u as [rc|]; [destruct (rc =? 0)%Z eqn:Hrc;
         [destruct v as [v|]; [destruct d as [d|]; [destruct c|]|]|]|]|]|]];
      amr_attempt_eval; rewrite ?Hrc; simpl; rewrite <- ?app_assoc;
      eexists; (split; [try reflexivity; symmetry; apply app_nil_r|]);
      simpl; (split; [reflexivity | lia]). }
  destruct Hlog as (evs & Hlog & Hc & Hr).
  by rewrite (calls_since_log _ _ _ Hlog).
Qed.

(** ** First lines and stripping *)

Lemma contains_nl_cons x s :
  contains nl (String x s) = Ascii.eqb nl_char x || contains nl s.
Proof.
  change (contains nl (String x s))
    with ((Ascii.eqb nl_char x && startswith "" s) || contains nl s).
  by rewrite startswith_empty, andb_true_r.
Qed.

Lemma readline_first l rest :
  contains nl l = false -> readline (l +:+ nl +:+ rest) = l +:+ nl.
Proof.
  induction l as [|x l IH]; intros Hl.
  - reflexivity.
  - rewrite contains_nl_cons in Hl. apply orb_false_iff in Hl as [Hx Hl].
    rewrite !append_cons. cbn [readline].
    rewrite Ascii.eqb_sym, Hx. by rewrite IH.
Qed.

Lemma rstrip_snoc s w :
  isspace w = true -> rstrip (s +:+ String w "") = rstrip s.
Proof.
  intros Hw. induction s as [|c s IH].
  - change ("" +:+ String w "") with (String w ""). cbn [rstrip].
    by rewrite Hw.
  - rewrite append_cons. cbn [rstrip]. by rewrite IH.
Qed.

Lemma strip_snoc s w :
  isspace w = true -> strip (s +:+ String w "") = strip s.
Proof.
  intros Hw. unfold strip. induction s as [|c s IH].
  - change ("" +:+ String w "") with (String w ""). cbn [lstrip].
    by rewrite Hw.
  - rewrite append_cons. cbn [lstrip]. destruct (isspace c); [exact IH|].
    by rewrite <- append_cons, rstrip_snoc.
Qed.

Lemma rstrip_idem s : rstrip (rstrip s) = rstrip s.
Proof.
  induction s as [|c s IH]; [done|]. cbn [rstrip].
  destruct (rstrip s) as [|c' r] eqn:E.
  - destruct (isspace c) eqn:Hc; [done|]. cbn [rstrip]. by rewrite Hc.
  - cbn [rstrip] in *. by rewrite IH.
Qed.

Lemma rstrip_keeps_head c s :
  isspace c = false -> exists r, rstrip (String c s) = String c r.
Proof.
  intros Hc. cbn [rstrip]. destruct (rstrip s); rewrite ?Hc; eauto.
Qed.

Lemma lstrip_head s :
  lstrip s = "" \/ exists c r, lstrip s = String c r /\ isspace c = false.
Proof.
  induction s as [|c s IH]; [by left|]. cbn [lstrip].
  destruct (isspace c) eqn:Hc; [exact IH|]. right. eauto.
Qed.

Lemma strip_idem s : strip (strip s) = strip s.
Proof.
  unfold strip. destruct (lstrip_head s) as [-> | (c & r & -> & Hc)]; [done|].
  destruct (rstrip_keeps_head c r Hc) as [r' Hr].
  rewrite Hr at 1. cbn [lstrip]. rewrite Hc, <- Hr. apply rstrip_idem.
Qed.

Lemma lstrip_readline c : exists c', lstrip (readline c) = readline c'.
Proof.
  induction c as [|x c IH]; [by exists ""|]. cbn [readline].
  destruct (Ascii.eqb x nl_char) eqn:Hx.
  - apply Ascii.eqb_eq in Hx. subst x. by exists "".
  - cbn [lstrip]. destruct (isspace x); [exact IH|].
    exists (String x c). cbn [readline]. by rewrite Hx.
Qed.

Lemma rstrip_readline_no_nl c : contains nl (rstrip (readline c)) = false.
Proof.
  induction c as [|x c IH]; [done|]. cbn [readline].
  destruct (Ascii.eqb x nl_char) eqn:Hx.
  - apply Ascii.eqb_eq in Hx. by subst x.
  - cbn [rstrip]. rewrite Ascii.eqb_sym in Hx.
    destruct (rstrip (readline c)) as [|y r].
    + destruct (isspace x); [done|]. by rewrite contains_nl_cons, Hx.
    + by rewrite contains_nl_cons, Hx, IH.
Qed.

Lemma first_line_clean c :
  contains nl (strip (readline c)) = false /\
  strip (strip (readline c)) = strip (readline c).
Proof.
  split; [|apply strip_idem]. unfold strip.
  destruct (lstrip_readline c) as [c' ->]. apply rstrip_readline_no_nl.
Qed.

(** X5. Only the first line of each version file counts: when version.txt
    starts with a line [v] and database_format_version.txt with a line [f],
    whatever follows them, a run in which every stage goes through
    publishes version [strip v] and format [strip f]. *)
Theorem amr_versions_from_first_lines :
  forall (json_path : string) (env : AmrFinderPlus.Env) (w0 : World)
         (v rest_v f rest_f : string),
    amr_upstream_ok env = true ->
    AmrFinderPlus.version_txt env = Some (v +:+ nl +:+ rest_v) ->
    AmrFinderPlus.database_format_version_txt env =
      Some (f +:+ nl +:+ rest_f) ->
    contains nl v = false ->
    contains nl f = false ->
    let e := amr_published_entry json_path env w0 in
    let table := "amrfinderplus_versioned_database" in
    entry_field table "value" e =
      Some (JString ("amrfinderplus_" +:+ strip v +:+ "_" +:+ strip f)) /\
    entry_field table "name" e =
      Some (JString (strip v +:+ " (" +:+ strip f +:+ ")")) /\
    entry_field table "db_version" e = Some (JString (strip f)).
Proof.
  intros jp env w0 v rest_v f rest_f Hok Hv Hf Hnv Hnf. simpl.
  destruct (amr_published_fields jp env w0) as (H1 & H2 & H3 & _).
  assert (Hd : amr_descriptor env = (strip v, strip f)).
  { unfold amr_descriptor. rewrite Hok, Hv, Hf. simpl.
    rewrite !readline_first by done.
    change nl with (String nl_char ""). by rewrite !strip_snoc. }
  rewrite Hd in H1, H2, H3. by repeat split.
Qed.

Lemma amr_versions_from_first_lines_witness :
  entry_field "amrfinderplus_versioned_database" "value"
    (amr_published_entry job_json amr_env_ok empty_world) =
  Some (JString ("amrfinderplus_" +:+ strip "3.12" +:+ "_" +:+
                 strip "2024-01-01.1")).
Proof.
  apply (amr_versions_from_first_lines job_json amr_env_ok empty_world
           "3.12" "" "2024-01-01.1" ""); reflexivity.
Defined.

(** X6. Whatever the version files hold and whatever fails, the version
    and the format an AMRFinderPlus object holds when [run] is over, which
    are those its catalog entry is made of, contain no newline and have no
    whitespace left to strip at either end. *)
Theorem amr_run_leaves_clean_descriptor :
  forall (json_path : string) (env : AmrFinderPlus.Env) (w0 : World),
    let s := snd (AmrFinderPlus.run env
                    (AmrFinderPlus.__init__ json_path "amrfinderplus-db" w0)) in
    let table := "amrfinderplus_versioned_database" in
    exists v f,
      AmrFinderPlus.version s = Some v /\
      AmrFinderPlus.dbformat s = Some f /\
      contains nl v = false /\ strip v = v /\
      contains nl f = false /\ strip f = f /\
      entry_field table "value" (amr_published_entry json_path env w0) =
        Some (JString ("amrfinderplus_" +:+ v +:+ "_" +:+ f)) /\
      entry_field table "db_version" (amr_published_entry json_path env w0) =
        Some (JString f).
Proof.
  intros jp env w0. cbv zeta.
  set (s0 := AmrFinderPlus.__init__ jp "amrfinderplus-db" w0).
  exists (fst (amr_descriptor env)), (snd (amr_descriptor env)).
  destruct (amr_run_spec env s0) as (w & evs & _ & _ & Hs & _).
  destruct (amr_attempt_descriptor env s0) as [Hv Hf].
  destruct (amr_published_fields jp env w0) as (Hval & _ & Hdb & _).
  split; [rewrite Hs; by destruct (snd (amr_attempt env s0))|].
  split; [rewrite Hs; by destruct (snd (amr_attempt env s0))|].
  assert (Hclean : contains nl (fst (amr_descriptor env)) = false /\
                   strip (fst (amr_descriptor env)) = fst (amr_descriptor env) /\
                   contains nl (snd (amr_descriptor env)) = false /\
                   strip (snd (amr_descriptor env)) = snd (amr_descriptor env)).
  { unfold amr_descriptor.
    destruct (amr_upstream_ok env); simpl; [|done].
    destruct (first_line_clean (default "" (AmrFinderPlus.version_txt env)))
      as [H1 H2].
    destruct (first_line_clean
                (default "" (AmrFinderPlus.database_format_version_txt env)))
      as [H3 H4].
    done. }
  destruct Hclean as (H1 & H2 & H3 & H4).
  split; [exact H1|]. split; [exact H2|]. split; [exact H3|].
  split; [exact H4|]. split; [exact Hval | exact Hdb].
Qed.

(** ** PubMLST: the download *)

(** X7. When the downloader does not return status 0 (it returns another
    status, or cannot be started) and the catalog file can be opened for
    writing, a PubMLST run makes three calls only: the mkdir of the output
    directory, the downloader, the catalog dump. Nothing is moved, merged,
    indexed or fetched. *)
Theorem mlst_failed_download_stops_the_run :
  forall (json_path p : string) (now : datetime) (env : MLST.Env)
         (w0 : World),
    MLST.input env = Params p ->
    MLST.makedirs_extra env = true ->
    MLST.download env <> Exited 0 ->
    MLST.dump_json env = true ->
    mlst_calls json_path now env w0 =
      [EvMkdir p;
       EvRun ["mlst-download_pub_mlst"; "-d"; "pubmlst"];
       EvDump json_path
         (dumps 0 (mlst_published_entry json_path now env w0))].
Proof.
  intros jp p now env w0 Hi Hm Hd Hdj.
  rewrite mlst_calls_spec, Hdj.
  assert (Hlog : log (MLST.world
                        (snd (mlst_attempt env (MLST.__init__ jp now w0)))) =
                 log w0 ++
                 [EvMkdir p;
                  EvRun ["mlst-download_pub_mlst"; "-d"; "pubmlst"]]).
  { unfold mlst_attempt, try_except, MLST.read_input_json,
      MLST.download_pubmlst_databases, try_except, subprocess_run, os_call,
      bind, lift, act, modify, ret, raise, emit.
    simpl. rewrite Hi; simpl. rewrite Hm; simpl.
    destruct (MLST.download env) as [rc|] eqn:E; simpl.
    - destruct (rc =? 0)%Z eqn:Hrc.
      + apply Z.eqb_eq in Hrc. by subst rc.
      + simpl. by rewrite <- app_assoc.
    - by rewrite <- app_assoc. }
  by rewrite (calls_since_log _ _ _ Hlog).
Qed.

Lemma mlst_failed_download_stops_the_run_witness :
  length (mlst_calls job_json noon mlst_env_not_started empty_world) = 3.
Proof.
  by rewrite (mlst_failed_download_stops_the_run job_json "/tmp/x" noon
                mlst_env_not_started empty_world eq_refl eq_refl
                ltac:(discriminate) eq_refl).
Defined.

(** ** PubMLST: the merge as a whole *)

Lemma join_lines_app l1 l2 :
  join_lines (l1 ++ l2) = join_lines l1 +:+ join_lines l2.
Proof.
  induction l1 as [|x l1 IH]; simpl; [done|].
  by rewrite IH, string_app_assoc.
Qed.

Lemma appends_ret out : appends out "" (ret tt).
Proof.
  intros s old Hold. simpl. rewrite string_app_nil_r.
  repeat split; try done. exists []. by rewrite app_nil_r.
Qed.

Lemma appends_write out text :
  appends out text (act (append_file out text)).
Proof.
  intros s old Hold. split; [done|]. split; [by apply append_file_content|].
  split; [done|]. exists [EvAppend out text]. split; [done|].
  simpl. by rewrite String.eqb_refl.
Qed.

Lemma appends_bind out t1 t2 (m k : M MLST.Self unit) :
  appends out t1 m -> appends out t2 k ->
  appends out (t1 +:+ t2) (bind m (fun _ => k)).
Proof.
  intros Hm Hk s old Hold. unfold bind.
  destruct (Hm s old Hold) as (Hr & Hf & Hd & evs1 & Hl1 & Ha1).
  destruct (m s) as [r s1]; simpl in *. subst r.
  destruct (Hk s1 _ Hf) as (Hr2 & Hf2 & Hd2 & evs2 & Hl2 & Ha2).
  split; [done|]. split; [by rewrite Hf2, string_app_assoc|].
  split; [congruence|]. exists (evs1 ++ evs2).
  split; [by rewrite Hl2, Hl1, app_assoc|].
  rewrite forallb_app. by rewrite Ha1, Ha2.
Qed.

Lemma appends_for_each {X} out (f : X -> string) (body : X -> M MLST.Self unit)
    (xs : list X) :
  Forall (fun x => appends out (f x) (body x)) xs ->
  appends out (join_lines (map f xs)) (for_each xs body).
Proof.
  induction 1 as [|x xs Hx _ IH]; simpl.
  - apply appends_ret.
  - by apply appends_bind.
Qed.

Lemma appends_copy_line out scheme line :
  appends out (line_text scheme line) (MLST.copy_line out scheme line).
Proof.
  unfold MLST.copy_line, line_text.
  destruct (contains "not a locus" line); cbn [negb when];
    [apply appends_ret|].
  destruct (startswith ">" line); apply appends_write.
Qed.

Lemma appends_copy_file out scheme f :
  file_readable f = true ->
  appends out (file_text scheme f) (MLST.copy_file out scheme f).
Proof.
  unfold file_readable, MLST.copy_file, file_text.
  destruct (endswith ".tfa" (MLST.fname f)); cbn [negb orb when];
    [|intros _; apply appends_ret].
  destruct (MLST.fcontent f) as [content|]; [|discriminate].
  destruct (MLST.fundecodable f); [discriminate|intros _].
  rewrite <- (string_app_nil_r (join_lines _)).
  apply appends_bind; [|apply appends_ret].
  apply appends_for_each. apply Forall_forall. intros line _.
  apply appends_copy_line.
Qed.

Lemma appends_copy_scheme out e :
  entry_readable e = true ->
  appends out (scheme_text e) (MLST.copy_scheme out e).
Proof.
  destruct e as [name|scheme listing]; simpl; [intros _; apply appends_ret|].
  intros Hall. apply appends_for_each. apply Forall_forall. intros f Hf.
  apply appends_copy_file.
  rewrite forallb_forall in Hall. apply Hall. by apply list_elem_of_In.
Qed.

Lemma appends_tree out tree :
  tree_readable tree = true ->
  appends out (tree_text tree) (for_each tree (MLST.copy_scheme out)).
Proof.
  intros Hall. apply appends_for_each. apply Forall_forall. intros e He.
  apply appends_copy_scheme.
  unfold tree_readable in Hall. rewrite forallb_forall in Hall.
  apply Hall. by apply list_elem_of_In.
Qed.

(** What [make_blast_database] does when the stages before and the merge
    itself go through: result, combined file, attributes and calls. *)
Lemma make_blast_database_spec env s d :
  MLST.output_dir s = Some d ->
  merge_reached env = true ->
  tree_readable (MLST.pubmlst env) = true ->
  let out := path_join (path_join d "blast") "mlst.fa" in
  let r := MLST.make_blast_database env s in
  fst r = check_run (MLST.makeblastdb env) /\
  mlst_file out (snd r) =
    Some (default "" (mlst_file out s) +:+ tree_text (MLST.pubmlst env)) /\
  MLST.output_dir (snd r) = Some d /\
  exists evs,
    forallb (is_append_to out) evs = true /\
    log (MLST.world (snd r)) =
      log (MLST.world s) ++ merge_preamble env d ++ evs ++
      [EvRun (makeblastdb_argv out)].
Proof.
  intros Hd Hreach Htree out r. subst r.
  unfold merge_reached in Hreach.
  apply andb_true_iff in Hreach as [Hreach Hopen].
  apply andb_true_iff in Hreach as [Hreach Hmk].
  apply andb_true_iff in Hreach as [Hrm Hmv].
  pose proof (appends_tree out (MLST.pubmlst env) Htree) as Hloop.
  unfold MLST.make_blast_database, MLST.join_output_dir, merge_preamble.
  unfold bind at 1. simpl. rewrite Hd.
  unfold bind at 1. simpl.
  destruct s as [jp ef od ts db w]; simpl in *. subst od.
  destruct (MLST.dst_exists env); simpl in Hrm; rewrite ?Hrm;
    unfold when, os_call, subprocess_run, bind, act, modify, ret, raise, lift,
      emit, open_append; simpl; rewrite Hmv, Hmk, Hopen; simpl.
  all: match goal with
       | |- context [for_each _ _ ?s1] =>
           destruct (Hloop s1 (default "" (files w !! out)))
             as (Hr & Hf & Ho & evs & Hl & Ha);
             [unfold mlst_file; simpl; apply lookup_insert_eq|];
             destruct (for_each _ _ s1) as [r2 s2]
       end.
  all: simpl in *; subst r2; destruct s2 as [jp2 ef2 od2 ts2 db2 w2];
    simpl in *; subst od2.
  all: split; [done|]; split; [exact Hf|]; split; [done|];
    exists evs; split; [exact Ha|];
    rewrite Hl; rewrite <- ?app_assoc; reflexivity.
Qed.

Lemma mlst_attempt_after_download env p s0 :
  MLST.input env = Params p ->
  MLST.makedirs_extra env = true ->
  MLST.download env = Exited 0 ->
  snd (mlst_attempt env s0) =
    snd (mlst_rest env (mlst_after_download env p s0)).
Proof.
  intros Hi Hm Hd. unfold mlst_attempt. fold (mlst_rest env).
  generalize (mlst_rest_mild env). generalize (mlst_rest env).
  intros rest Hrest.
  unfold try_except, MLST.read_input_json, MLST.download_pubmlst_databases,
    try_except, subprocess_run, os_call, bind, lift, act, modify, ret, raise,
    mlst_after_download.
  simpl. rewrite Hi; simpl. rewrite Hm; simpl. rewrite Hd; simpl.
  match goal with |- context [rest ?s] => specialize (Hrest s) end.
  match goal with |- context [rest ?s] => destruct (rest s) as [[[]|x] s3] end;
    simpl in *; [done|].
  by rewrite (Hrest x eq_refl).
Qed.

Lemma make_blast_database_unfold env s d :
  MLST.output_dir s = Some d ->
  merge_reached env = true ->
  let out := path_join (path_join d "blast") "mlst.fa" in
  MLST.make_blast_database env s =
    (for_each (MLST.pubmlst env) (MLST.copy_scheme out) ;;
     subprocess_run (makeblastdb_argv out) (MLST.makeblastdb env))
      (merge_start env d s).
Proof.
  intros Hd Hreach out.
  unfold merge_reached in Hreach.
  apply andb_true_iff in Hreach as [Hreach Hopen].
  apply andb_true_iff in Hreach as [Hreach Hmk].
  apply andb_true_iff in Hreach as [Hrm Hmv].
  unfold MLST.make_blast_database, MLST.join_output_dir, merge_start,
    merge_preamble.
  unfold bind at 1. simpl. rewrite Hd.
  unfold bind at 1. simpl.
  destruct s as [jp ef od ts db w]; simpl in *. subst od.
  destruct (MLST.dst_exists env); simpl in Hrm; rewrite ?Hrm;
    unfold when, os_call, bind at 1 2 3 4 5 6 7 8, act, modify, ret, raise,
      emit, open_append; simpl; rewrite Hmv, Hmk, Hopen; simpl;
    rewrite <- ?app_assoc; reflexivity.
Qed.

Lemma mlst_calls_after_download jp p now env w0 evs :
  MLST.input env = Params p ->
  MLST.makedirs_extra env = true ->
  MLST.download env = Exited 0 ->
  let s1 := mlst_after_download env p (MLST.__init__ jp now w0) in
  log (MLST.world (snd (mlst_rest env s1))) = log (MLST.world s1) ++ evs ->
  mlst_calls jp now env w0 =
    [EvMkdir p; EvRun ["mlst-download_pub_mlst"; "-d"; "pubmlst"]] ++ evs ++
    [dump_event (MLST.dump_json env) jp
       (dumps 0 (mlst_published_entry jp now env w0))].
Proof.
  intros Hi Hm Hd s1 Hlog. rewrite mlst_calls_spec.
  rewrite (mlst_attempt_after_download env p _ Hi Hm Hd). fold s1.
  rewrite (calls_since_log w0 _
             ([EvMkdir p; EvRun ["mlst-download_pub_mlst"; "-d"; "pubmlst"]] ++
              evs)).
  - by rewrite <- app_assoc.
  - rewrite Hlog. unfold s1, mlst_after_download, emit; simpl.
    by rewrite <- !app_assoc.
Qed.

Lemma species_map_spec env s d text :
  MLST.output_dir s = Some d ->
  MLST.urlopen env = true ->
  MLST.open_map env = true ->
  MLST.map_body env = Some text ->
  let dst := path_join d "scheme_species_map.tab" in
  fst (MLST.download_scheme_species_map env s) = Return tt /\
  mlst_file dst (snd (MLST.download_scheme_species_map env s)) = Some text /\
  log (MLST.world (snd (MLST.download_scheme_species_map env s))) =
    log (MLST.world s) ++ species_map_calls d text.
Proof.
  intros Hd Hu Ho Hb dst.
  unfold MLST.download_scheme_species_map, MLST.join_output_dir, try_except,
    os_call, bind, act, modify, get, ret, raise, emit, write_file, mlst_file,
    species_map_calls.
  simpl. rewrite Hd; simpl. rewrite Hu; simpl. rewrite Ho; simpl.
  rewrite Hb; simpl. split; [done|]. split; [apply lookup_insert_eq|].
  by rewrite <- !app_assoc.
Qed.

(** C5. In [make_blast_database], a line that starts with ">" and passes
    the marker test goes into the combined file as ">", the name of the
    scheme directory its file is in, ".", and then the line without its
    first character: the ">" stays, what followed it is kept verbatim. This
    holds wherever the line stands in its file, the file in its scheme
    directory and the directory in the tree: the combined file is what it
    held before, the text of what precedes the line, the rewritten line, and
    the text of what follows it. *)
Theorem C5_identifier_gets_scheme_prefix :
  forall (env : MLST.Env) (s : MLST.Self) (d scheme : string)
         (before after : list MLST.dir_entry)
         (fs1 fs2 : list MLST.scheme_file) (f : MLST.scheme_file)
         (content : string) (l1 l2 : list string) (line : string),
    MLST.output_dir s = Some d ->
    merge_reached env = true ->
    tree_readable (MLST.pubmlst env) = true ->
    MLST.pubmlst env =
      before ++ MLST.Directory scheme (fs1 ++ f :: fs2) :: after ->
    endswith ".tfa" (MLST.fname f) = true ->
    MLST.fcontent f = Some content ->
    file_lines content = l1 ++ line :: l2 ->
    startswith ">" line = true ->
    contains "not a locus" line = false ->
    let out := path_join (path_join d "blast") "mlst.fa" in
    let written := ">" +:+ scheme +:+ "." +:+ slice1 line in
    line = ">" +:+ slice1 line /\
    (forall s', MLST.copy_line out scheme line s' =
                act (append_file out written) s') /\
    mlst_file out (snd (MLST.make_blast_database env s)) =
      Some (default "" (mlst_file out s) +:+
            tree_text before +:+
            join_lines (map (file_text scheme) fs1) +:+
            join_lines (map (line_text scheme) l1) +:+
            written +:+
            join_lines (map (line_text scheme) l2) +:+
            join_lines (map (file_text scheme) fs2) +:+
            tree_text after).
Proof.
  intros env s d scheme before after fs1 fs2 f content l1 l2 line
    Hd Hreach Hread Htree Hname Hcontent Hlines Hgt Hmark out written.
  split; [exact (startswith_gt line Hgt)|]. split.
  { intros s'. unfold MLST.copy_line. by rewrite Hmark, Hgt. }
  destruct (make_blast_database_spec env s d Hd Hreach Hread) as (_ & Hf & _).
  fold out in Hf. rewrite Hf. f_equal. f_equal.
  rewrite Htree. unfold tree_text.
  rewrite map_app, join_lines_app. f_equal.
  cbn [map join_lines fold_right scheme_text].
  rewrite map_app, join_lines_app, string_app_assoc. f_equal.
  cbn [map join_lines fold_right].
  rewrite string_app_assoc.
  assert (Hfile : file_text scheme f =
                  join_lines (map (line_text scheme) l1) +:+
                  written +:+ join_lines (map (line_text scheme) l2)).
  { unfold file_text. rewrite Hname, Hcontent, Hlines.
    rewrite map_app, join_lines_app. f_equal.
    cbn [map join_lines fold_right]. f_equal.
    unfold line_text. by rewrite Hmark, Hgt. }
  rewrite Hfile. by rewrite !string_app_assoc.
Qed.

Lemma C5_identifier_gets_scheme_prefix_witness :
  mlst_file "/tmp/x/blast/mlst.fa"
    (snd (MLST.make_blast_database mlst_env_two_schemes mlst_ready)) =
  Some ("" +:+
        (">ecoli.adk_1" +:+ nl +:+ "ACGT" +:+ nl +:+ "GGCC" +:+ nl) +:+
        "" +:+
        (">senterica.aroC_1" +:+ nl +:+ "TTTT" +:+ nl) +:+
        (">senterica.aroC_2" +:+ nl) +:+
        ("CCCC" +:+ nl) +:+
        "" +:+ "").
Proof.
  exact (proj2 (proj2
    (C5_identifier_gets_scheme_prefix mlst_env_two_schemes mlst_ready
       "/tmp/x" "senterica"
       [MLST.Directory "ecoli"
          [{| MLST.fname := "adk.tfa"; MLST.fcontent := Some adk_tfa;
              MLST.fundecodable := false |}]]
       [MLST.PlainFile "README"]
       [{| MLST.fname := "senterica.txt"; MLST.fcontent := Some "ST aroC";
           MLST.fundecodable := false |}]
       []
       {| MLST.fname := "aroC.tfa"; MLST.fcontent := Some aroC_tfa;
          MLST.fundecodable := false |}
       aroC_tfa
       [">aroC_1" +:+ nl; "TTTT" +:+ nl] ["CCCC" +:+ nl] (">aroC_2" +:+ nl)
       eq_refl eq_refl eq_refl eq_refl eq_refl eq_refl eq_refl eq_refl
       eq_refl))).
Defined.

(** X8. When the stages before it go through and every sequence file can
    be read, [make_blast_database] leaves the combined file holding what it
    held before followed by the text of the tree: the .tfa files of the
    scheme directories in listing order, lines with the marker dropped,
    identifier lines prefixed with the scheme. Names that are not
    directories and files not ending in ".tfa" add nothing. Its result is
    that of makeblastdb. *)
Theorem make_blast_database_appends_tree_text :
  forall (env : MLST.Env) (s : MLST.Self) (d : string),
    MLST.output_dir s = Some d ->
    merge_reached env = true ->
    tree_readable (MLST.pubmlst env) = true ->
    let out := path_join (path_join d "blast") "mlst.fa" in
    mlst_file out (snd (MLST.make_blast_database env s)) =
      Some (default "" (mlst_file out s) +:+ tree_text (MLST.pubmlst env)) /\
    fst (MLST.make_blast_database env s) = check_run (MLST.makeblastdb env).
Proof.
  intros env s d Hd Hreach Htree out.
  destruct (make_blast_database_spec env s d Hd Hreach Htree)
    as (Hr & Hf & _). by split.
Qed.

Lemma make_blast_database_appends_tree_text_witness :
  mlst_file (path_join (path_join "/tmp/x" "blast") "mlst.fa")
    (snd (MLST.make_blast_database mlst_env_ok mlst_ready)) =
  Some (default ""
          (mlst_file (path_join (path_join "/tmp/x" "blast") "mlst.fa")
             mlst_ready) +:+
        tree_text sample_tree).
Proof.
  apply (make_blast_database_appends_tree_text mlst_env_ok mlst_ready "/tmp/x");
    reflexivity.
Defined.

(** X9. For every readable tree, merging the same tree a second time into
    the same output directory leaves the combined file with the text of
    the tree twice. *)
Theorem second_merge_repeats_the_tree :
  forall (env1 env2 : MLST.Env) (s : MLST.Self) (d : string),
    MLST.output_dir s = Some d ->
    merge_reached env1 = true ->
    merge_reached env2 = true ->
    MLST.pubmlst env2 = MLST.pubmlst env1 ->
    tree_readable (MLST.pubmlst env1) = true ->
    let out := path_join (path_join d "blast") "mlst.fa" in
    let text := tree_text (MLST.pubmlst env1) in
    mlst_file out s = None ->
    let s1 := snd (MLST.make_blast_database env1 s) in
    let s2 := snd (MLST.make_blast_database env2 s1) in
    mlst_file out s1 = Some text /\
    mlst_file out s2 = Some (text +:+ text).
Proof.
  intros env1 env2 s d Hd Hr1 Hr2 Htree Hread out text Hnew s1 s2.
  destruct (make_blast_database_spec env1 s d Hd Hr1 Hread)
    as (_ & Hf1 & Hd1 & _).
  fold out s1 in Hf1, Hd1. rewrite Hnew in Hf1.
  rewrite <- Htree in Hread.
  destruct (make_blast_database_spec env2 s1 d Hd1 Hr2 Hread)
    as (_ & Hf2 & _).
  fold out s2 in Hf2. rewrite Hf1, Htree in Hf2.
  split; [exact Hf1 | exact Hf2].
Qed.

Lemma second_merge_repeats_the_tree_witness :
  mlst_file (path_join (path_join "/tmp/x" "blast") "mlst.fa")
    (snd (MLST.make_blast_database (mlst_env (Exited 0) true)
            (snd (MLST.make_blast_database mlst_env_ok mlst_ready)))) =
  Some (tree_text sample_tree +:+ tree_text sample_tree).
Proof.
  apply (second_merge_repeats_the_tree mlst_env_ok (mlst_env (Exited 0) true)
           mlst_ready "/tmp/x"); reflexivity.
Defined.

(** X10. A failing makeblastdb is not fatal: when the merge went through,
    makeblastdb returns a nonzero status and the catalog file can be opened
    for writing, the run still exits with 0 and dumps the catalog; its
    calls are the mkdir, the downloader, the move of the tree, the writes to
    the combined file, makeblastdb, the dump. The species map is not
    fetched. *)
Theorem mlst_indexing_failure_is_swallowed :
  forall (json_path p : string) (now : datetime) (env : MLST.Env)
         (w0 : World) (rc : Z),
    MLST.input env = Params p ->
    MLST.makedirs_extra env = true ->
    MLST.download env = Exited 0 ->
    merge_reached env = true ->
    tree_readable (MLST.pubmlst env) = true ->
    MLST.makeblastdb env = Exited rc ->
    rc <> 0%Z ->
    MLST.dump_json env = true ->
    let d := MLST.abspath env p in
    let out := path_join (path_join d "blast") "mlst.fa" in
    fst (MLST.main json_path now env w0) = 0%Z /\
    exists writes,
      forallb (is_append_to out) writes = true /\
      mlst_calls json_path now env w0 =
        [EvMkdir p; EvRun ["mlst-download_pub_mlst"; "-d"; "pubmlst"]] ++
        (merge_preamble env d ++ writes ++ [EvRun (makeblastdb_argv out)]) ++
        [EvDump json_path
           (dumps 0 (mlst_published_entry json_path now env w0))].
Proof.
  intros jp p now env w0 rc Hi Hm Hd Hreach Htree Hmk Hrc Hdj d out.
  split.
  - destruct (mlst_main_spec jp now env w0) as (-> & _).
    unfold mlst_download_returned_nonzero. by rewrite Hi, Hm, Hd, Hdj.
  - set (s1 := mlst_after_download env p (MLST.__init__ jp now w0)).
    destruct (make_blast_database_spec env s1 d eq_refl Hreach Htree)
      as (Hr & _ & _ & writes & Hw & Hlog).
    exists writes. split; [exact Hw|].
    rewrite (mlst_calls_after_download jp p now env w0
               (merge_preamble env d ++ writes ++
                [EvRun (makeblastdb_argv out)]) Hi Hm Hd);
      [by rewrite Hdj|].
    fold s1. unfold mlst_rest, bind.
    rewrite Hmk in Hr. simpl in Hr.
    destruct (rc =? 0)%Z eqn:E; [apply Z.eqb_eq in E; contradiction|].
    destruct (MLST.make_blast_database env s1) as [r s2]; simpl in *.
    by subst r.
Qed.

Lemma mlst_indexing_failure_is_swallowed_witness :
  fst (MLST.main job_json noon mlst_env_index_fails empty_world) = 0%Z.
Proof.
  refine (proj1 (mlst_indexing_failure_is_swallowed job_json "/tmp/x" noon
                   mlst_env_index_fails empty_world 1 eq_refl eq_refl eq_refl
                   eq_refl eq_refl eq_refl _ eq_refl)).
  discriminate.
Defined.

(** X11. A PubMLST run in which every stage goes through and the catalog
    file can be opened for writing makes these calls, in this order: the
    mkdir, the downloader, the move of the tree (after removing an old
    copy), the mkdir of blast/, the writes to the combined file, makeblastdb
    on that file, the fetch and the write of the species map, the catalog
    dump; it exits with 0. *)
Theorem mlst_successful_run_calls :
  forall (json_path p text : string) (now : datetime) (env : MLST.Env)
         (w0 : World),
    MLST.input env = Params p ->
    MLST.makedirs_extra env = true ->
    MLST.download env = Exited 0 ->
    merge_reached env = true ->
    tree_readable (MLST.pubmlst env) = true ->
    MLST.makeblastdb env = Exited 0 ->
    MLST.urlopen env = true ->
    MLST.open_map env = true ->
    MLST.map_body env = Some text ->
    MLST.dump_json env = true ->
    let d := MLST.abspath env p in
    let out := path_join (path_join d "blast") "mlst.fa" in
    fst (MLST.main json_path now env w0) = 0%Z /\
    exists writes,
      forallb (is_append_to out) writes = true /\
      mlst_calls json_path now env w0 =
        [EvMkdir p; EvRun ["mlst-download_pub_mlst"; "-d"; "pubmlst"]] ++
        (merge_preamble env d ++ writes ++ [EvRun (makeblastdb_argv out)] ++
         species_map_calls d text) ++
        [EvDump json_path
           (dumps 0 (mlst_published_entry json_path now env w0))].
Proof.
  intros jp p text now env w0 Hi Hm Hd Hreach Htree Hmk Hu Ho Hb Hdj d out.
  split.
  - destruct (mlst_main_spec jp now env w0) as (-> & _).
    unfold mlst_download_returned_nonzero. by rewrite Hi, Hm, Hd, Hdj.
  - set (s1 := mlst_after_download env p (MLST.__init__ jp now w0)).
    destruct (make_blast_database_spec env s1 d eq_refl Hreach Htree)
      as (Hr & _ & Hod & writes & Hw & Hlog).
    exists writes. split; [exact Hw|].
    rewrite (mlst_calls_after_download jp p now env w0
               (merge_preamble env d ++ writes ++
                [EvRun (makeblastdb_argv out)] ++ species_map_calls d text)
               Hi Hm Hd);
      [by rewrite Hdj|].
    fold s1. unfold mlst_rest, bind.
    rewrite Hmk in Hr. simpl in Hr.
    destruct (MLST.make_blast_database env s1) as [r s2]; simpl in *.
    subst r.
    destruct (species_map_spec env s2 d text Hod Hu Ho Hb) as (_ & _ & Hl).
    rewrite Hl, Hlog. by rewrite <- !app_assoc.
Qed.

Lemma mlst_successful_run_calls_witness :
  fst (MLST.main job_json noon mlst_env_ok empty_world) = 0%Z.
Proof.
  exact (proj1 (mlst_successful_run_calls job_json "/tmp/x"
                  "ecoli Escherichia coli" noon mlst_env_ok empty_world
                  eq_refl eq_refl eq_refl eq_refl eq_refl eq_refl eq_refl
                  eq_refl eq_refl eq_refl)).
Defined.

Lemma copy_file_fails out scheme f s old :
  endswith ".tfa" (MLST.fname f) = true ->
  file_readable f = false ->
  mlst_file out s = Some old ->
  exists s' evs,
    MLST.copy_file out scheme f s = (Raise (Exception (read_error f)), s') /\
    mlst_file out s' = Some (old +:+ file_text scheme f) /\
    log (MLST.world s') = log (MLST.world s) ++ evs /\
    forallb (is_append_to out) evs = true.
Proof.
  unfold file_readable, MLST.copy_file, file_text, read_error.
  intros Hname. rewrite Hname. cbn [negb orb when].
  destruct (MLST.fcontent f) as [content|].
  - destruct (MLST.fundecodable f); [intros _|discriminate]. intros Hold.
    assert (Hall : Forall (fun x => appends out (line_text scheme x)
                                      (MLST.copy_line out scheme x))
                     (file_lines content)).
    { apply Forall_forall. intros line _. apply appends_copy_line. }
    destruct (appends_for_each out (line_text scheme)
                (MLST.copy_line out scheme) (file_lines content) Hall s old Hold)
      as (Hr & Hf & _ & evs & Hl & Ha).
    unfold bind.
    destruct (for_each (file_lines content) _ s) as [r s'];
      simpl in Hr, Hf, Hl. subst r.
    by exists s', evs.
  - intros _ Hold. exists s, []. split; [done|].
    rewrite string_app_nil_r, app_nil_r. done.
Qed.

Lemma merge_loop_stops out scheme before after fs1 fs2 f
    (k : M MLST.Self unit) s1 old :
  tree_readable before = true ->
  forallb file_readable fs1 = true ->
  endswith ".tfa" (MLST.fname f) = true ->
  file_readable f = false ->
  mlst_file out s1 = Some old ->
  exists sB writes,
    (for_each (before ++ MLST.Directory scheme (fs1 ++ f :: fs2) :: after)
       (MLST.copy_scheme out) ;; k) s1 =
      (Raise (Exception (read_error f)), sB) /\
    mlst_file out sB =
      Some (((old +:+ tree_text before) +:+
             join_lines (map (file_text scheme) fs1)) +:+
            file_text scheme f) /\
    forallb (is_append_to out) writes = true /\
    log (MLST.world sB) = log (MLST.world s1) ++ writes.
Proof.
  intros Hbefore Hfs1 Hname Hbad Hstart.
  destruct (appends_tree out before Hbefore s1 _ Hstart)
    as (Hr1 & Hf1 & _ & evs1 & Hl1 & Ha1).
  destruct (for_each before _ s1) as [r1 sA] eqn:E1; simpl in Hr1, Hf1, Hl1.
  subst r1.
  assert (Hall : Forall (fun x => appends out (file_text scheme x)
                                    (MLST.copy_file out scheme x)) fs1).
  { apply Forall_forall. intros x Hx. apply appends_copy_file.
    rewrite forallb_forall in Hfs1. apply Hfs1. by apply list_elem_of_In. }
  destruct (appends_for_each out (file_text scheme)
              (MLST.copy_file out scheme) fs1 Hall sA _ Hf1)
    as (Hr2 & Hf2 & _ & evs2 & Hl2 & Ha2).
  destruct (for_each fs1 _ sA) as [r2 sB] eqn:E2; simpl in Hr2, Hf2, Hl2.
  subst r2.
  destruct (copy_file_fails out scheme f sB _ Hname Hbad Hf2)
    as (sC & evs3 & E3 & Hf3 & Hl3 & Ha3).
  exists sC, (evs1 ++ evs2 ++ evs3). split; [|split; [exact Hf3|split]].
  - unfold bind at 1. rewrite for_each_app. unfold bind at 1. rewrite E1.
    cbn [for_each MLST.copy_scheme]. unfold bind at 1.
    rewrite for_each_app. unfold bind at 1. rewrite E2.
    cbn [for_each]. unfold bind at 1.
    by rewrite E3.
  - by rewrite !forallb_app, Ha1, Ha2, Ha3.
  - by rewrite Hl3, Hl2, Hl1, <- !app_assoc.
Qed.

(** X12. A sequence file that cannot be read to its end stops the merge.
    When it cannot be opened, [make_blast_database] raises OSError and
    nothing of the file is merged; when its bytes cannot be decoded, it
    raises UnicodeDecodeError (a ValueError) after the lines yielded before
    the bad bytes were merged. In both cases the combined file keeps what
    was merged until then, nothing of what comes after the file in the
    listing is merged, and makeblastdb is not run. *)
Theorem unreadable_sequence_file_stops_merge :
  forall (env : MLST.Env) (s : MLST.Self) (d scheme : string)
         (before after : list MLST.dir_entry)
         (fs1 fs2 : list MLST.scheme_file) (f : MLST.scheme_file),
    MLST.output_dir s = Some d ->
    merge_reached env = true ->
    MLST.pubmlst env =
      before ++ MLST.Directory scheme (fs1 ++ f :: fs2) :: after ->
    tree_readable before = true ->
    forallb file_readable fs1 = true ->
    endswith ".tfa" (MLST.fname f) = true ->
    file_readable f = false ->
    let out := path_join (path_join d "blast") "mlst.fa" in
    let r := MLST.make_blast_database env s in
    let merged := (default "" (mlst_file out s) +:+ tree_text before) +:+
                  join_lines (map (file_text scheme) fs1) in
    match MLST.fcontent f with
    | None =>
        fst r = Raise (Exception OSError) /\
        mlst_file out (snd r) = Some merged
    | Some yielded =>
        MLST.fundecodable f = true /\
        fst r = Raise (Exception ValueError) /\
        mlst_file out (snd r) =
          Some (merged +:+
                join_lines (map (line_text scheme) (file_lines yielded)))
    end /\
    exists writes,
      forallb (is_append_to out) writes = true /\
      log (MLST.world (snd r)) =
        log (MLST.world s) ++ merge_preamble env d ++ writes.
Proof.
  intros env s d scheme before after fs1 fs2 f Hd Hreach Htree Hbefore Hfs1
    Hname Hbad out r merged. subst r merged.
  rewrite (make_blast_database_unfold env s d Hd Hreach). fold out.
  assert (Hstart : mlst_file out (merge_start env d s) =
                   Some (default "" (mlst_file out s))).
  { unfold mlst_file, merge_start. simpl. apply lookup_insert_eq. }
  rewrite Htree.
  destruct (merge_loop_stops out scheme before after fs1 fs2 f
              (subprocess_run (makeblastdb_argv out) (MLST.makeblastdb env))
              _ _ Hbefore Hfs1 Hname Hbad Hstart)
    as (sB & writes & -> & Hf & Ha & Hl).
  cbn [fst snd]. split.
  - unfold file_readable in Hbad. rewrite Hname in Hbad.
    unfold file_text, read_error in *. rewrite Hname in Hf.
    destruct (MLST.fcontent f) as [yielded|].
    + destruct (MLST.fundecodable f); [|discriminate Hbad]. by repeat split.
    + rewrite string_app_nil_r in Hf. by split.
  - exists writes. split; [exact Ha|]. rewrite Hl. unfold merge_start. simpl.
    by rewrite <- app_assoc.
Qed.

Lemma unreadable_sequence_file_stops_merge_witness :
  fst (MLST.make_blast_database mlst_env_unreadable_file mlst_ready) =
    Raise (Exception OSError) /\
  fst (MLST.make_blast_database mlst_env_undecodable_file mlst_ready) =
    Raise (Exception ValueError) /\
  mlst_file "/tmp/x/blast/mlst.fa"
    (snd (MLST.make_blast_database mlst_env_undecodable_file mlst_ready)) =
  Some ((("" +:+ tree_text sample_tree) +:+ "") +:+
        join_lines (map (line_text "senterica")
                      [">aroC_1" +:+ nl; "TTTT" +:+ nl])).
Proof.
  pose proof (unreadable_sequence_file_stops_merge mlst_env_unreadable_file
                mlst_ready "/tmp/x" "senterica" sample_tree [] [] []
                {| MLST.fname := "aroC.tfa"; MLST.fcontent := None;
                   MLST.fundecodable := false |}
                eq_refl eq_refl eq_refl eq_refl eq_refl eq_refl eq_refl)
    as [[H1 _] _].
  pose proof (unreadable_sequence_file_stops_merge mlst_env_undecodable_file
                mlst_ready "/tmp/x" "senterica" sample_tree
                [MLST.PlainFile "README"] []
                [{| MLST.fname := "zzz.tfa";
                    MLST.fcontent := Some (">zzz_1" +:+ nl);
                    MLST.fundecodable := false |}]
                {| MLST.fname := "aroC.tfa";
                   MLST.fcontent := Some (">aroC_1" +:+ nl +:+ "TTTT" +:+ nl);
                   MLST.fundecodable := true |}
                eq_refl eq_refl eq_refl eq_refl eq_refl eq_refl eq_refl)
    as [(_ & H2 & H3) _].
  exact (conj H1 (conj H2 H3)).
Defined.

(** ** PubMLST: the species map *)

(** X13. [download_scheme_species_map] never raises once the output
    directory is known: a URL that cannot be opened, or a map file that
    cannot be opened for writing, is passed over and no file is touched.
    Before the output directory is known it raises TypeError without any
    call, the path being built outside its [try]. *)
Theorem species_map_failure_is_not_fatal :
  forall (env : MLST.Env) (s : MLST.Self),
    match MLST.output_dir s with
    | Some d =>
        fst (MLST.download_scheme_species_map env s) = Return tt /\
        (MLST.urlopen env && MLST.open_map env = false ->
         files (MLST.world (snd (MLST.download_scheme_species_map env s))) =
         files (MLST.world s))
    | None =>
        MLST.download_scheme_species_map env s =
          (Raise (Exception TypeError), s)
    end.
Proof.
  intros env [jp ef od ts db w]. simpl.
  unfold MLST.download_scheme_species_map, MLST.join_output_dir, try_except,
    os_call, bind, act, modify, get, ret, raise, emit, write_file.
  simpl. destruct od as [d|]; simpl; [|done].
  destruct (MLST.urlopen env); simpl; [|done].
  destruct (MLST.open_map env); simpl; [|done].
  destruct (MLST.map_body env); simpl; split; done.
Qed.

Lemma species_map_failure_is_not_fatal_witness :
  fst (MLST.download_scheme_species_map mlst_env_offline mlst_ready) =
    Return tt /\
  files (MLST.world
           (snd (MLST.download_scheme_species_map mlst_env_offline
                   mlst_ready))) =
  files (MLST.world mlst_ready).
Proof.
  destruct (species_map_failure_is_not_fatal mlst_env_offline mlst_ready)
    as [Hr Hf].
  split; [exact Hr | exact (Hf eq_refl)].
Defined.

(** X14. When the map file has been opened for writing and the response
    cannot be read or decoded, the map file is left empty, whatever it held
    before, and the function still returns. *)
Theorem species_map_left_empty_on_bad_response :
  forall (env : MLST.Env) (s : MLST.Self) (d : string),
    MLST.output_dir s = Some d ->
    MLST.urlopen env = true ->
    MLST.open_map env = true ->
    MLST.map_body env = None ->
    let r := MLST.download_scheme_species_map env s in
    fst r = Return tt /\
    mlst_file (path_join d "scheme_species_map.tab") (snd r) = Some "".
Proof.
  intros env [jp ef od ts db w] d Hd Hu Ho Hb. simpl in *. subst od.
  unfold MLST.download_scheme_species_map, MLST.join_output_dir, try_except,
    os_call, bind, act, modify, get, ret, raise, emit, write_file, mlst_file.
  simpl. rewrite Hu; simpl. rewrite Ho; simpl. rewrite Hb; simpl.
  split; [done|]. apply lookup_insert_eq.
Qed.

Lemma species_map_left_empty_on_bad_response_witness :
  mlst_file (path_join "/tmp/x" "scheme_species_map.tab")
    (snd (MLST.download_scheme_species_map mlst_env_index_fails mlst_ready)) =
  Some "".
Proof.
  exact (proj2 (species_map_left_empty_on_bad_response mlst_env_index_fails
                  mlst_ready "/tmp/x" eq_refl eq_refl eq_refl eq_refl)).
Defined.

(** ** PubMLST: identifiers across schemes *)

Lemma contains_dot_cons x s :
  contains "." (String x s) = Ascii.eqb "."%char x || contains "." s.
Proof.
  change (contains "." (String x s))
    with ((Ascii.eqb "."%char x && startswith "" s) || contains "." s).
  by rewrite startswith_empty, andb_true_r.
Qed.

Lemma dotted_prefix_inj (s1 s2 r1 r2 : string) :
  contains "." s1 = false ->
  contains "." s2 = false ->
  s1 +:+ "." +:+ r1 = s2 +:+ "." +:+ r2 ->
  s1 = s2 /\ r1 = r2.
Proof.
  revert s2. induction s1 as [|x s1 IH]; intros [|y s2] H1 H2 Heq.
  - change (String "."%char r1 = String "."%char r2) in Heq.
    by injection Heq as ->.
  - change (String "."%char r1 = String y (s2 +:+ "." +:+ r2)) in Heq.
    injection Heq as <- _.
    rewrite contains_dot_cons in H2. by rewrite Ascii.eqb_refl in H2.
  - change (String x (s1 +:+ "." +:+ r1) = String "."%char r2) in Heq.
    injection Heq as -> _.
    rewrite contains_dot_cons in H1. by rewrite Ascii.eqb_refl in H1.
  - change (String x (s1 +:+ "." +:+ r1) = String y (s2 +:+ "." +:+ r2))
      in Heq.
    injection Heq as -> Heq.
    rewrite contains_dot_cons in H1, H2.
    apply orb_false_iff in H1 as [_ H1]. apply orb_false_iff in H2 as [_ H2].
    destruct (IH s2 H1 H2 Heq) as [-> ->]. done.
Qed.

Lemma prefixed_line_text_inj (scheme1 scheme2 line1 line2 : string) :
  contains "." scheme1 = false ->
  contains "." scheme2 = false ->
  startswith ">" line1 = true ->
  startswith ">" line2 = true ->
  ">" +:+ scheme1 +:+ "." +:+ slice1 line1 =
  ">" +:+ scheme2 +:+ "." +:+ slice1 line2 ->
  scheme1 = scheme2 /\ line1 = line2.
Proof.
  intros Hs1 Hs2 Hg1 Hg2.
  change (">" +:+ ?a) with (String ">"%char a). intros Heq.
  injection Heq as Heq.
  destruct (dotted_prefix_inj _ _ _ _ Hs1 Hs2 Heq) as [-> Hrest].
  split; [done|].
  rewrite (startswith_gt line1 Hg1), (startswith_gt line2 Hg2).
  by rewrite Hrest.
Qed.

(** X15. For schemes whose names contain no ".", the prefix [copy_line]
    puts on identifier lines keeps them apart: of two identifier lines that
    pass the marker test and differ, or come from different schemes,
    [copy_line] appends different texts to the combined file, each ">",
    the scheme, "." and the rest of the line. *)
Theorem prefixed_identifiers_stay_distinct :
  forall (out scheme1 scheme2 line1 line2 : string) (s : MLST.Self)
         (old : string),
    mlst_file out s = Some old ->
    contains "." scheme1 = false ->
    contains "." scheme2 = false ->
    startswith ">" line1 = true ->
    startswith ">" line2 = true ->
    contains "not a locus" line1 = false ->
    contains "not a locus" line2 = false ->
    scheme1 <> scheme2 \/ line1 <> line2 ->
    let t1 := ">" +:+ scheme1 +:+ "." +:+ slice1 line1 in
    let t2 := ">" +:+ scheme2 +:+ "." +:+ slice1 line2 in
    mlst_file out (snd (MLST.copy_line out scheme1 line1 s)) =
      Some (old +:+ t1) /\
    mlst_file out (snd (MLST.copy_line out scheme2 line2 s)) =
      Some (old +:+ t2) /\
    t1 <> t2.
Proof.
  intros out scheme1 scheme2 line1 line2 s old Hold Hs1 Hs2 Hg1 Hg2 Hm1 Hm2
    Hdiff t1 t2.
  destruct (appends_copy_line out scheme1 line1 s old Hold) as (_ & Hf1 & _).
  destruct (appends_copy_line out scheme2 line2 s old Hold) as (_ & Hf2 & _).
  unfold line_text in Hf1, Hf2. rewrite Hm1, Hg1 in Hf1. rewrite Hm2, Hg2 in Hf2.
  split; [exact Hf1|]. split; [exact Hf2|].
  intros Heq.
  destruct (prefixed_line_text_inj _ _ _ _ Hs1 Hs2 Hg1 Hg2 Heq) as [E1 E2].
  destruct Hdiff as [Hd | Hd]; by apply Hd.
Qed.

Lemma prefixed_identifiers_stay_distinct_witness :
  mlst_file "mlst.fa"
    (snd (MLST.copy_line "mlst.fa" "ecoli" (">adk_1" +:+ nl)
            (snd (act (open_append "mlst.fa") mlst_ready)))) =
    Some ("" +:+ ">" +:+ "ecoli" +:+ "." +:+ slice1 (">adk_1" +:+ nl)) /\
  mlst_file "mlst.fa"
    (snd (MLST.copy_line "mlst.fa" "senterica" (">adk_1" +:+ nl)
            (snd (act (open_append "mlst.fa") mlst_ready)))) =
    Some ("" +:+ ">" +:+ "senterica" +:+ "." +:+ slice1 (">adk_1" +:+ nl)) /\
  ">" +:+ "ecoli" +:+ "." +:+ slice1 (">adk_1" +:+ nl) <>
  ">" +:+ "senterica" +:+ "." +:+ slice1 (">adk_1" +:+ nl).
Proof.
  assert (Hold : mlst_file "mlst.fa"
                   (snd (act (open_append "mlst.fa") mlst_ready)) = Some "")
    by reflexivity.
  assert (Hdiff : "ecoli" <> "senterica" \/
                  ">adk_1" +:+ nl <> ">adk_1" +:+ nl)
    by (left; discriminate).
  exact (prefixed_identifiers_stay_distinct "mlst.fa" "ecoli" "senterica"
           (">adk_1" +:+ nl) (">adk_1" +:+ nl)
           (snd (act (open_append "mlst.fa") mlst_ready)) ""
           Hold eq_refl eq_refl eq_refl eq_refl eq_refl eq_refl Hdiff).
Defined.

(** * variant4b.py *)

Lemma file_lines_single content :
  readline content = content -> length (file_lines content) <= 1.
Proof.
  induction content as [|c s IH]; [simpl; lia|].
  cbn [readline file_lines]. destruct (Ascii.eqb c nl_char).
  - intros [= <-]. simpl. lia.
  - intros [= Hs]. specialize (IH Hs).
    destruct (file_lines s) as [|l ls]; simpl in *; lia.
Qed.

(** X16. An input of at most one line (empty, or a header alone, with or
    without its newline) makes [identify_variants_with_genes] return
    without writing the output file, whatever the header names. *)
Theorem variant4b_header_only_writes_nothing :
  forall (content simple_name : string) (writable : bool),
    readline content = content ->
    Variant4b.identify_variants_with_genes (Some content) writable simple_name
    = Variant4b.Returned None.
Proof.
  intros content name writable Hone.
  unfold Variant4b.identify_variants_with_genes.
  pose proof (file_lines_single content Hone) as Hlen.
  destruct (Nat.leb_spec (length (file_lines content)) 1); [done | lia].
Qed.

Lemma variant4b_header_only_writes_nothing_witness :
  Variant4b.identify_variants_with_genes (Some lissero_header) true "f.tab"
  = Variant4b.Returned None.
Proof.
  apply (variant4b_header_only_writes_nothing lissero_header "f.tab" true).
  reflexivity.
Defined.

Lemma index_missing name headers :
  name ∉ headers -> Variant4b.index name headers = Variant4b.Err Variant4b.ValueError.
Proof.
  induction headers as [|h rest IH]; intros Hnot; [done|].
  cbn [Variant4b.index]. apply not_elem_of_cons in Hnot as [Hne Hnot].
  destruct (String.eqb_spec h name) as [->|_]; [done|]. by rewrite IH.
Qed.

Lemma index_error name headers e :
  Variant4b.index name headers = Variant4b.Err e -> e = Variant4b.ValueError.
Proof.
  induction headers as [|h rest IH]; cbn [Variant4b.index]; [by intros [= <-]|].
  destruct (String.eqb h name); [discriminate|].
  destruct (Variant4b.index name rest); [discriminate|].
  intros [= <-]. by apply IH.
Qed.

Lemma index_found name headers :
  name ∈ headers -> exists i, Variant4b.index name headers = Variant4b.Ok i.
Proof.
  induction headers as [|h rest IH]; intros Hin; [by apply elem_of_nil in Hin|].
  cbn [Variant4b.index]. destruct (String.eqb_spec h name) as [->|Hne]; [eauto|].
  apply elem_of_cons in Hin as [->|Hin]; [done|].
  destruct (IH Hin) as [i ->]. eauto.
Qed.

Lemma indices_missing headers genes gene :
  gene ∈ genes -> gene ∉ headers ->
  Variant4b.indices headers genes = Variant4b.Err Variant4b.ValueError.
Proof.
  induction genes as [|g rest IH]; intros Hin Hnot;
    [by apply elem_of_nil in Hin|].
  cbn [Variant4b.indices].
  destruct (Variant4b.index g headers) as [i|e] eqn:Ei.
  - apply elem_of_cons in Hin as [->|Hin].
    + by rewrite (index_missing _ _ Hnot) in Ei.
    + by rewrite (IH Hin Hnot).
  - by rewrite (index_error _ _ _ Ei).
Qed.

(** X17. When the header line lacks one of the columns LMO0737, ORF2110,
    ORF2819 or SEROTYPE, a table of two lines or more makes the function
    raise ValueError; no output is written, whatever the data rows hold. *)
Theorem variant4b_missing_column_raises :
  forall (content simple_name first second column : string)
         (rest : list string) (writable : bool),
    file_lines content = first :: second :: rest ->
    column ∈ Variant4b.genes_of_interest ++ ["SEROTYPE"] ->
    column ∉ Variant4b.split_tab (strip first) ->
    Variant4b.identify_variants_with_genes (Some content) writable simple_name
    = Variant4b.Raised Variant4b.ValueError.
Proof.
  intros content name first second column rest writable Hlines Hcol Hnot.
  unfold Variant4b.identify_variants_with_genes. rewrite Hlines.
  cbn [length Nat.leb].
  apply elem_of_app in Hcol as [Hgene|Hser].
  - by rewrite (indices_missing _ _ _ Hgene Hnot).
  - apply list_elem_of_singleton in Hser. subst column.
    destruct (Variant4b.indices _ _) as [gi|e] eqn:Ei.
    + by rewrite (index_missing _ _ Hnot).
    + unfold Variant4b.genes_of_interest in Ei.
      cbn [Variant4b.indices] in Ei.
      repeat match type of Ei with
             | context [Variant4b.index ?g ?h] =>
                 let E := fresh "E" in
                 destruct (Variant4b.index g h) eqn:E;
                   [|apply index_error in E; subst; by injection Ei as <-]
             end.
      discriminate Ei.
Qed.

Lemma variant4b_missing_column_raises_witness :
  Variant4b.identify_variants_with_genes
    (Some (("ID" +:+ Variant4b.tab +:+ "SEROTYPE" +:+ nl) +:+ lissero_row_4b))
    true "f.tab"
  = Variant4b.Raised Variant4b.ValueError.
Proof.
  apply (variant4b_missing_column_raises _ "f.tab"
           ("ID" +:+ Variant4b.tab +:+ "SEROTYPE" +:+ nl) lissero_row_4b
           "ORF2110" [] true).
  - reflexivity.
  - apply elem_of_app. left. apply elem_of_cons. right.
    apply elem_of_cons. by left.
  - vm_compute. intros H. repeat (apply elem_of_cons in H as [H|H];
      [discriminate H|]). by apply elem_of_nil in H.
Defined.

Lemma contains_tab_cons x s :
  contains Variant4b.tab (String x s) =
  Ascii.eqb Variant4b.tab_char x || contains Variant4b.tab s.
Proof.
  change (contains Variant4b.tab (String x s))
    with ((Ascii.eqb Variant4b.tab_char x && startswith "" s)
          || contains Variant4b.tab s).
  by rewrite startswith_empty, andb_true_r.
Qed.

Lemma split_tab_no_tab s : Forall no_tab (Variant4b.split_tab s).
Proof.
  induction s as [|c s IH]; [by repeat constructor|].
  cbn [Variant4b.split_tab].
  destruct (Ascii.eqb c Variant4b.tab_char) eqn:Hc.
  - by constructor.
  - destruct (Variant4b.split_tab s) as [|f fs].
    + repeat constructor. unfold no_tab.
      by rewrite contains_tab_cons, Ascii.eqb_sym, Hc.
    + apply Forall_cons in IH as [Hf Hfs]. constructor; [|done].
      unfold no_tab in *. by rewrite contains_tab_cons, Ascii.eqb_sym, Hc.
Qed.

Lemma split_tab_field f : no_tab f -> Variant4b.split_tab f = [f].
Proof.
  unfold no_tab. induction f as [|c f IH]; intros Hf; [done|].
  rewrite contains_tab_cons in Hf. apply orb_false_iff in Hf as [Hc Hf].
  cbn [Variant4b.split_tab]. by rewrite Ascii.eqb_sym, Hc, (IH Hf).
Qed.

Lemma split_tab_app f rest :
  no_tab f ->
  Variant4b.split_tab (f +:+ Variant4b.tab +:+ rest) =
  f :: Variant4b.split_tab rest.
Proof.
  unfold no_tab. induction f as [|c f IH]; intros Hf; [done|].
  rewrite contains_tab_cons in Hf. apply orb_false_iff in Hf as [Hc Hf].
  rewrite append_cons. cbn [Variant4b.split_tab].
  by rewrite Ascii.eqb_sym, Hc, (IH Hf).
Qed.

Lemma split_join data :
  data <> [] -> Forall no_tab data ->
  Variant4b.split_tab (Variant4b.join_tab data) = data.
Proof.
  induction data as [|x [|y rest] IH]; intros Hne Hall; [done| |].
  - apply Forall_cons in Hall as [Hx _]. by apply split_tab_field.
  - apply Forall_cons in Hall as [Hx Hrest].
    change (Variant4b.join_tab (x :: y :: rest))
      with (x +:+ Variant4b.tab +:+ Variant4b.join_tab (y :: rest)).
    rewrite (split_tab_app _ _ Hx). by rewrite IH.
Qed.

Lemma all_full_spec data gene_indices b :
  Variant4b.all_full data gene_indices = Variant4b.Ok b ->
  b = forallb (full_at data) gene_indices.
Proof.
  revert b. induction gene_indices as [|i rest IH]; intros b;
    cbn [Variant4b.all_full forallb]; [by intros [= <-]|].
  unfold full_at at 1. destruct (data !! i) as [field|]; [|discriminate].
  destruct (String.eqb field "FULL"); [apply IH | by intros [= <-]].
Qed.

(** X18. An output row, split on tabs, is the file name followed by the
    fields of the input row: the row keeps its number of fields, every
    field but SEROTYPE is unchanged, and SEROTYPE becomes "4b variant"
    exactly when the three gene fields are all "FULL". *)
Theorem variant4b_output_row_fields :
  forall (gene_indices : list nat) (serotype_index : nat)
         (simple_name line row : string),
    Variant4b.modified_line gene_indices serotype_index simple_name line =
      Variant4b.Ok row ->
    no_tab simple_name ->
    let data := Variant4b.split_tab (strip line) in
    exists data',
      row = simple_name +:+ Variant4b.tab +:+ Variant4b.join_tab data' +:+ nl /\
      Variant4b.split_tab
        (simple_name +:+ Variant4b.tab +:+ Variant4b.join_tab data') =
        simple_name :: data' /\
      length data' = length data /\
      (forall j, j <> serotype_index -> data' !! j = data !! j) /\
      data' !! serotype_index =
        if forallb (full_at data) gene_indices then Some "4b variant"
        else data !! serotype_index.
Proof.
  intros gi si name line row Hrow Hname data.
  unfold Variant4b.modified_line, Variant4b.relabel in Hrow. fold data in Hrow.
  pose proof (split_tab_no_tab (strip line)) as Hclean. fold data in Hclean.
  assert (Hne : data <> []).
  { unfold data. destruct (strip line) as [|c s]; [done|].
    cbn [Variant4b.split_tab]. destruct (Ascii.eqb c Variant4b.tab_char);
      [done|]. by destruct (Variant4b.split_tab s). }
  destruct (Variant4b.all_full data gi) as [b|e] eqn:Hall; [|discriminate].
  apply all_full_spec in Hall. rewrite <- Hall.
  destruct b.
  - unfold Variant4b.set_item in Hrow.
    destruct (Nat.ltb_spec si (length data)) as [Hlt|_]; [|discriminate].
    injection Hrow as <-. exists (<[si := "4b variant"]> data).
    split; [done|]. split; [|split; [apply length_insert|split]].
    + rewrite (split_tab_app _ _ Hname). f_equal. apply split_join.
      * intros Hnil. apply (f_equal length) in Hnil.
        rewrite length_insert in Hnil. simpl in Hnil. lia.
      * by apply Forall_insert.
    + intros j Hj. by apply list_lookup_insert_ne.
    + by apply list_lookup_insert_eq.
  - injection Hrow as <-. exists data. split; [done|].
    split; [|done]. rewrite (split_tab_app _ _ Hname). f_equal.
    by apply split_join.
Qed.

Lemma variant4b_output_row_fields_witness :
  exists data',
    Variant4b.split_tab
      ("f.tab" +:+ Variant4b.tab +:+ Variant4b.join_tab data') =
      "f.tab" :: data' /\
    data' !! 1 = Some "4b variant".
Proof.
  destruct (variant4b_output_row_fields [2; 3; 4] 1 "f.tab" lissero_row_4b
              _ eq_refl eq_refl) as (data' & _ & Hsplit & _ & _ & Hser).
  exists data'. split; [exact Hsplit | exact Hser].
Defined.

Lemma modified_line_error gi si name line e :
  Variant4b.modified_line gi si name line = Variant4b.Err e ->
  e = Variant4b.IndexError.
Proof.
  unfold Variant4b.modified_line, Variant4b.relabel, Variant4b.set_item.
  generalize (Variant4b.split_tab (strip line)). intros data.
  assert (Hall : forall e', Variant4b.all_full data gi = Variant4b.Err e' ->
                            e' = Variant4b.IndexError).
  { induction gi as [|i rest IH]; intros e'; cbn [Variant4b.all_full];
      [discriminate|].
    destruct (data !! i) as [field|]; [|by intros [= <-]].
    destruct (String.eqb field "FULL"); [apply IH | discriminate]. }
  destruct (Variant4b.all_full data gi) as [[]|e'] eqn:E.
  - destruct (si <? length data)%nat; [discriminate | by intros [= <-]].
  - discriminate.
  - intros [= <-]. by apply Hall.
Qed.

Lemma modified_line_short i0 others si name line :
  length (Variant4b.split_tab (strip line)) <= i0 ->
  Variant4b.modified_line (i0 :: others) si name line =
    Variant4b.Err Variant4b.IndexError.
Proof.
  intros Hshort. unfold Variant4b.modified_line, Variant4b.relabel.
  cbn [Variant4b.all_full]. by rewrite (lookup_ge_None_2 _ _ Hshort).
Qed.

Lemma modified_rows_stop gi si name rows row :
  row ∈ rows ->
  Variant4b.modified_line gi si name row = Variant4b.Err Variant4b.IndexError ->
  Variant4b.modified_rows gi si name rows = Variant4b.Err Variant4b.IndexError.
Proof.
  intros Hin Hrow. induction rows as [|line rest IH];
    [by apply elem_of_nil in Hin|].
  cbn [Variant4b.modified_rows].
  destruct (Variant4b.modified_line gi si name line) as [out|e] eqn:E.
  - apply elem_of_cons in Hin as [->|Hin]; [by rewrite Hrow in E|].
    by rewrite (IH Hin).
  - by rewrite (modified_line_error _ _ _ _ _ E).
Qed.

(** X19. A data row with too few fields to reach the LMO0737 column (a
    blank line, for one) makes the whole call raise IndexError: nothing is
    written, not even the rows before it. *)
Theorem variant4b_short_row_raises :
  forall (content simple_name first row : string) (rest : list string)
         (writable : bool) (i0 : nat),
    file_lines content = first :: rest ->
    row ∈ rest ->
    let headers := Variant4b.split_tab (strip first) in
    Variant4b.index "LMO0737" headers = Variant4b.Ok i0 ->
    "ORF2110" ∈ headers ->
    "ORF2819" ∈ headers ->
    "SEROTYPE" ∈ headers ->
    length (Variant4b.split_tab (strip row)) <= i0 ->
    Variant4b.identify_variants_with_genes (Some content) writable simple_name
    = Variant4b.Raised Variant4b.IndexError.
Proof.
  intros content name first row rest writable i0 Hlines Hin headers Hi0
    H1 H2 H3 Hshort.
  unfold Variant4b.identify_variants_with_genes. rewrite Hlines.
  destruct rest as [|second rest]; [by apply elem_of_nil in Hin|].
  cbn [length Nat.leb]. fold headers.
  unfold Variant4b.genes_of_interest. cbn [Variant4b.indices].
  rewrite Hi0.
  destruct (index_found _ _ H1) as [i1 ->].
  destruct (index_found _ _ H2) as [i2 ->].
  destruct (index_found _ _ H3) as [si ->].
  by rewrite (modified_rows_stop _ _ _ _ row Hin
                (modified_line_short i0 _ si name row Hshort)).
Qed.

Lemma variant4b_short_row_raises_witness :
  Variant4b.identify_variants_with_genes
    (Some (lissero_header +:+ lissero_row_4b +:+ nl)) true "f.tab"
  = Variant4b.Raised Variant4b.IndexError.
Proof.
  apply (variant4b_short_row_raises _ "f.tab" lissero_header nl
           [lissero_row_4b; nl] true 2).
  - reflexivity.
  - apply elem_of_cons. right. apply elem_of_cons. by left.
  - reflexivity.
  - vm_compute. repeat (apply elem_of_cons; first [by left | right]).
  - vm_compute. repeat (apply elem_of_cons; first [by left | right]).
  - vm_compute. repeat (apply elem_of_cons; first [by left | right]).
  - vm_compute. lia.
Defined.

(** * create_shed_yaml.py *)

Lemma collapse_single_spaced in_run t :
  single_spaced in_run (CreateShedYaml.collapse in_run t) = true.
Proof.
  revert in_run. induction t as [|c t IH]; intros in_run; [done|].
  cbn [CreateShedYaml.collapse]. destruct (isspace c) eqn:Hc.
  - destruct in_run; [apply IH|].
    cbn [single_spaced]. change (isspace " ") with true. cbn iota.
    by rewrite IH.
  - cbn [single_spaced]. rewrite Hc. apply IH.
Qed.

Lemma lstrip_single_spaced b s :
  single_spaced b s = true -> single_spaced false (lstrip s) = true.
Proof.
  revert b. induction s as [|c s IH]; intros b; [done|].
  cbn [single_spaced lstrip]. destruct (isspace c) eqn:Hc.
  - intros H. apply andb_true_iff in H as [_ H]. by apply (IH true).
  - intros H. cbn [single_spaced]. by rewrite Hc.
Qed.

Lemma rstrip_single_spaced b s :
  single_spaced b s = true -> single_spaced b (rstrip s) = true.
Proof.
  revert b. induction s as [|c s IH]; intros b; [done|].
  cbn [single_spaced rstrip]. destruct (isspace c) eqn:Hc.
  - intros H. apply andb_true_iff in H as [H1 H2]. specialize (IH true H2).
    destruct (rstrip s) as [|y r]; [done|].
    cbn [single_spaced]. rewrite Hc, H1. exact IH.
  - intros H. specialize (IH false H).
    destruct (rstrip s) as [|y r]; cbn [single_spaced]; by rewrite Hc.
Qed.

Lemma single_spaced_no_nbsp b s :
  single_spaced b s = true -> CreateShedYaml.replace_nbsp s = s.
Proof.
  revert b. induction s as [|c s IH]; intros b; [done|].
  cbn [single_spaced CreateShedYaml.replace_nbsp].
  destruct (Ascii.eqb_spec c CreateShedYaml.nbsp) as [->|_].
  - change (isspace CreateShedYaml.nbsp) with true. cbn iota.
    change (Ascii.eqb CreateShedYaml.nbsp " ") with false. done.
  - destruct (isspace c).
    + intros H. apply andb_true_iff in H as [_ H]. by rewrite (IH true H).
    + intros H. by rewrite (IH false H).
Qed.

Lemma single_spaced_collapse b s :
  single_spaced b s = true -> CreateShedYaml.collapse b s = s.
Proof.
  revert b. induction s as [|c s IH]; intros b; [done|].
  cbn [single_spaced CreateShedYaml.collapse]. destruct (isspace c).
  - intros H. apply andb_true_iff in H as [H H2].
    apply andb_true_iff in H as [Hc Hb]. apply Ascii.eqb_eq in Hc.
    destruct b; [discriminate Hb|]. subst c. by rewrite (IH true H2).
  - intros H. by rewrite (IH false H).
Qed.

Lemma clean_text_unfold s :
  CreateShedYaml.clean_text (Some s) =
  strip (CreateShedYaml.collapse false (CreateShedYaml.replace_nbsp s)).
Proof. by destruct s. Qed.

(** X20. In the text [clean_text] returns, every whitespace character is a
    plain space standing alone between two other characters: no tab,
    newline or non-breaking space is left, no two spaces follow each
    other, and the text neither starts nor ends with whitespace. *)
Theorem clean_text_is_tidy :
  forall (t : option string),
    single_spaced false (CreateShedYaml.clean_text t) = true /\
    strip (CreateShedYaml.clean_text t) = CreateShedYaml.clean_text t.
Proof.
  intros [s|]; [|done]. rewrite clean_text_unfold.
  split; [|apply strip_idem]. unfold strip.
  apply rstrip_single_spaced.
  apply (lstrip_single_spaced false), collapse_single_spaced.
Qed.

(** X21. [clean_text] is idempotent: cleaning a cleaned text changes
    nothing. *)
Theorem clean_text_idempotent :
  forall (t : option string),
    CreateShedYaml.clean_text (Some (CreateShedYaml.clean_text t)) =
    CreateShedYaml.clean_text t.
Proof.
  intros t. set (r := CreateShedYaml.clean_text t).
  assert (Hs : single_spaced false r = true /\ strip r = r).
  { unfold r. destruct t as [s|]; [|done]. rewrite clean_text_unfold.
    split; [|apply strip_idem]. unfold strip.
    apply rstrip_single_spaced.
    apply (lstrip_single_spaced false), collapse_single_spaced. }
  destruct Hs as [Hs Hstrip]. rewrite clean_text_unfold.
  by rewrite (single_spaced_no_nbsp _ _ Hs), (single_spaced_collapse _ _ Hs).
Qed.

(** X22. A text that is already tidy (single plain spaces between words,
    nothing to strip at the ends) comes back from [clean_text] unchanged. *)
Theorem clean_text_keeps_tidy_text :
  forall (s : string),
    single_spaced false s = true ->
    strip s = s ->
    CreateShedYaml.clean_text (Some s) = s.
Proof.
  intros s Hs Hstrip. rewrite clean_text_unfold.
  by rewrite (single_spaced_no_nbsp _ _ Hs), (single_spaced_collapse _ _ Hs).
Qed.

Lemma clean_text_keeps_tidy_text_witness :
  CreateShedYaml.clean_text (Some "Serotyping of Listeria") =
  "Serotyping of Listeria".
Proof.
  apply (clean_text_keeps_tidy_text "Serotyping of Listeria"); reflexivity.
Defined.
